(** * Verification model of the SVOps workflow orchestration core

    A shallow embedding of the backend modules that drive Airflow DAG runs:
    - [app/shared/types.py]                      : [WorkflowStatus], [TaskStatus]
    - [app/domain/entities.py]                   : [WorkflowRun.update_status]
    - [app/application/use_cases/workflow_use_cases.py] : trigger / stop /
      status-read commands and [_map_airflow_status]
    - [app/application/tasks/workflow_tasks.py]  : the per-run watch loop
    - [app/application/tasks/dag_chain_tasks.py] : the DAG chain monitor
    - [app/core/retry.py]                        : retry with backoff and the
      circuit breaker.

    Time ([datetime.now()]) is modelled as an integer count of microseconds
    supplied by the environment.  The floats of the retry module are IEEE
    754 doubles (module [Float64]); the other floats of the code are not
    modelled. *)

Set Warnings "-register-all".
From Stdlib Require Import ZArith QArith Qpower Qminmax Qround Lia Lqa List String Bool.
From stdpp Require Import base gmap strings.
Import ListNotations.
Open Scope string_scope.

(* ------------------------------------------------------------------ *)
(** ** Shared types ([app/shared/types.py]) *)

Inductive WorkflowStatus :=
| QUEUED | RUNNING | SUCCESS | FAILED | UP_FOR_RETRY | UP_FOR_RESCHEDULE
| UPSTREAM_FAILED | SKIPPED | REMOVED | SCHEDULED.

Definition WorkflowStatus_eq_dec (a b : WorkflowStatus) : {a = b} + {a <> b}.
Proof. decide equality. Defined.

#[global] Instance WorkflowStatus_EqDecision : EqDecision WorkflowStatus :=
  WorkflowStatus_eq_dec.

Inductive TaskStatus := PENDING | T_RUNNING | COMPLETED | T_FAILED | CANCELLED.

(** Terminal statuses as the spec's glossary lists them. *)
Definition is_terminal (s : WorkflowStatus) : bool :=
  match s with
  | SUCCESS | FAILED | UPSTREAM_FAILED | SKIPPED | REMOVED => true
  | _ => false
  end.

(* ------------------------------------------------------------------ *)
(** ** [_map_airflow_status]

    Both copies (the method of [WorkflowUseCases] and the module-level
    function of [workflow_tasks.py]) are the same dict lookup with default
    [WorkflowStatus.QUEUED]. *)

Definition airflow_status_mapping : list (string * WorkflowStatus) :=
  [ ("queued", QUEUED); ("running", RUNNING); ("success", SUCCESS);
    ("failed", FAILED); ("up_for_retry", UP_FOR_RETRY);
    ("up_for_reschedule", UP_FOR_RESCHEDULE);
    ("upstream_failed", UPSTREAM_FAILED); ("skipped", SKIPPED);
    ("removed", REMOVED); ("scheduled", SCHEDULED) ].

(** [dict.get(key, default)] over an association list. *)
Fixpoint dict_get {V} (d : list (string * V)) (k : string) (dflt : V) : V :=
  match d with
  | [] => dflt
  | (k', v) :: d' => if String.eqb k k' then v else dict_get d' k dflt
  end.

Definition _map_airflow_status (airflow_state : string) : WorkflowStatus :=
  dict_get airflow_status_mapping airflow_state QUEUED.

(* ------------------------------------------------------------------ *)
(** ** The [WorkflowRun] entity ([app/domain/entities.py]) *)

(** Values of the opaque parameter dictionaries. *)
Inductive PValue :=
| PNat (n : nat) | PStr (s : string) | PNone
| PDict (d : list (string * PValue)).

Definition params := list (string * PValue).

Record WorkflowRun := mkRun {
  run_id : string;
  run_workflow_id : string;
  status : WorkflowStatus;
  start_date : option Z;
  end_date : option Z;
  run_parameters : params;
}.

(** [WorkflowRun.update_status]: sets the status; stamps [end_date] with
    the clock only for SUCCESS and FAILED. *)
Definition update_status (r : WorkflowRun) (new_status : WorkflowStatus)
    (now : Z) : WorkflowRun :=
  {| run_id := run_id r; run_workflow_id := run_workflow_id r;
     status := new_status; start_date := start_date r;
     end_date := match new_status with
                 | SUCCESS | FAILED => Some now
                 | _ => end_date r
                 end;
     run_parameters := run_parameters r |}.

Definition set_start_date (r : WorkflowRun) (d : option Z) : WorkflowRun :=
  {| run_id := run_id r; run_workflow_id := run_workflow_id r;
     status := status r; start_date := d; end_date := end_date r;
     run_parameters := run_parameters r |}.

Definition set_end_date (r : WorkflowRun) (d : option Z) : WorkflowRun :=
  {| run_id := run_id r; run_workflow_id := run_workflow_id r;
     status := status r; start_date := start_date r; end_date := d;
     run_parameters := run_parameters r |}.

(** The response of [get_dag_run_status]: the fields the core reads.
    [state = None] stands for a missing key; dates are already parsed. *)
Record DagRunResponse := mkResp {
  resp_state : option string;
  resp_start_date : option Z;
  resp_end_date : option Z;
}.

(** [if dag_run_data.get("start_date"): run.start_date = parse(...)] *)
Definition apply_resp_dates (r : WorkflowRun) (resp : DagRunResponse)
    : WorkflowRun :=
  let r1 := match resp_start_date resp with
            | Some d => set_start_date r (Some d) | None => r end in
  match resp_end_date resp with
  | Some d => set_end_date r1 (Some d) | None => r1
  end.

(** What the watch's database step applies to a loaded run
    ([_update_workflow_run_status], lines 366-379): the mapped status is
    written through [update_status] with no comparison, then the response
    dates are copied.  [dag_run_data.get("state", "unknown")]. *)
Definition state_or_unknown (resp : DagRunResponse) : string :=
  match resp_state resp with Some s => s | None => "unknown" end.

Definition watch_apply (r : WorkflowRun) (resp : DagRunResponse) (now : Z)
    : WorkflowRun :=
  apply_resp_dates
    (update_status r (_map_airflow_status (state_or_unknown resp)) now) resp.

(** What [get_workflow_run_status] applies (lines 193-205): only when the
    mapped status differs from the stored one. *)
Definition sync_apply (r : WorkflowRun) (s : string) (resp : DagRunResponse)
    (now : Z) : WorkflowRun :=
  let airflow_status := _map_airflow_status s in
  if decide (status r = airflow_status) then r
  else apply_resp_dates (update_status r airflow_status now) resp.

(** The local part of [stop_workflow_run]. *)
Definition stop_apply (r : WorkflowRun) (now : Z) : WorkflowRun :=
  update_status r FAILED now.

(** The local part of [retry_workflow_run]. *)
Definition retry_apply (r : WorkflowRun) (now : Z) : WorkflowRun :=
  set_end_date (set_start_date (update_status r QUEUED now) None) None.

(** The run created by [trigger_workflow] (status QUEUED, dates unset). *)
Definition new_run (rid wid : string) (ps : params) : WorkflowRun :=
  {| run_id := rid; run_workflow_id := wid; status := QUEUED;
     start_date := None; end_date := None; run_parameters := ps |}.

(* ------------------------------------------------------------------ *)
(** ** Commands and background tasks over the run repository *)

Module Orchestration.

(** The run repository ([uow.workflow_runs]), keyed by run id. *)
Abbreviation Store := (gmap string WorkflowRun).

(** Events handed to [WorkflowEventPublisher] and the notification tasks. *)
Inductive Event :=
| EvTriggered (wid rid : string)
| EvStopped (wid rid : string)
| EvRetried (wid rid : string)
| EvStarted (wid rid : string)
| EvCompleted (wid rid : string) (success : bool)
| NotifyStarted (wid rid : string)
| NotifyCompleted (wid rid : string) (success : bool).

Inductive Error := ExternalServiceError | EntityNotFound.

(** [WorkflowUseCases.stop_workflow_run].  [cancel_ok] is the outcome of
    [airflow_client.patch_dag_run(..., state="failed")]; [has_publisher]
    whether the use case was built with an event publisher.  Every
    exception in the [try] block, including the [EntityNotFound] raised
    inside it, leaves as [ExternalServiceError]. *)
Definition stop_workflow_run (has_publisher cancel_ok : bool) (now : Z)
    (db : Store) (workflow_id rid : string)
    : Store * list Event * (Error + WorkflowRun) :=
  if negb cancel_ok then (db, [], inl ExternalServiceError)
  else match db !! rid with
       | None => (db, [], inl ExternalServiceError)
       | Some r =>
           let r' := stop_apply r now in
           (<[rid := r']> db,
            (if has_publisher then [EvStopped workflow_id rid] else []),
            inr r')
       end.

(** [WorkflowUseCases.get_workflow_run_status].  [workflow_found] is the
    result of [uow.workflows.get_by_id]; [query] the Airflow response
    ([None] when the call raised).  A response without a [state] key makes
    [dag_run_response["state"]] raise; that too leaves as
    [ExternalServiceError].  This path publishes no event. *)
Definition get_workflow_run_status (workflow_found : bool)
    (query : option DagRunResponse) (now : Z) (db : Store) (rid : string)
    : Store * (Error + WorkflowRun) :=
  match db !! rid with
  | None => (db, inl EntityNotFound)
  | Some r =>
      if negb workflow_found then (db, inl EntityNotFound) else
      match query with
      | None => (db, inl ExternalServiceError)
      | Some resp =>
          match resp_state resp with
          | None => (db, inl ExternalServiceError)
          | Some s =>
              if decide (status r = _map_airflow_status s) then (db, inr r)
              else let r' := sync_apply r s resp now in
                   (<[rid := r']> db, inr r')
          end
      end
  end.

(** [WorkflowUseCases.retry_workflow_run]: [clear_ok] is the outcome of
    [airflow_client.clear_dag_run]. *)
Definition retry_workflow_run (has_publisher clear_ok : bool) (now : Z)
    (db : Store) (workflow_id rid : string)
    : Store * list Event * (Error + WorkflowRun) :=
  if negb clear_ok then (db, [], inl ExternalServiceError)
  else match db !! rid with
       | None => (db, [], inl ExternalServiceError)
       | Some r =>
           let r' := retry_apply r now in
           (<[rid := r']> db,
            (if has_publisher then [EvRetried workflow_id rid] else []),
            inr r')
       end.

(** [_update_workflow_run_status]: load, apply unconditionally, save. *)
Definition _update_workflow_run_status (rid : string) (resp : DagRunResponse)
    (now : Z) (db : Store) : Store :=
  match db !! rid with
  | None => db
  | Some r => <[rid := watch_apply r resp now]> db
  end.

(** One iteration of the loop of [_monitor_workflow_run_impl] on a
    successful query: database update, publication by the raw Airflow
    state, and whether the loop breaks.  (The Redis cache write is not
    observed by the claims and is left out.)  The model covers iterations
    in which every call of the [try] body returns; an exception raised
    after the database update or a publication, which the [except] at
    line 194 catches before the loop sleeps and polls again, is not
    modelled. *)
Definition watch_poll (wid rid : string) (resp : DagRunResponse) (now : Z)
    (db : Store) : Store * list Event * bool :=
  let airflow_state := state_or_unknown resp in
  let st := _map_airflow_status airflow_state in
  let db' := _update_workflow_run_status rid resp now db in
  if String.eqb airflow_state "running" then
    (db', [EvStarted wid rid; NotifyStarted wid rid],
     match st with SUCCESS | FAILED | REMOVED => true | _ => false end)
  else if String.eqb airflow_state "success" then
    (db', [EvCompleted wid rid true; NotifyCompleted wid rid true], true)
  else if String.eqb airflow_state "failed" then
    (db', [EvCompleted wid rid false; NotifyCompleted wid rid false], true)
  else
    (db', [], match st with SUCCESS | FAILED | REMOVED => true | _ => false end).

(** The [while attempt < max_attempts] loop.  Each element of [polls] is
    the outcome of one query ([None]: the query raised before any effect,
    the loop sleeps and goes on) with the clock at that iteration. *)
Fixpoint watch_loop (fuel : nat) (wid rid : string)
    (polls : list (option DagRunResponse * Z)) (db : Store) (evs : list Event)
    : Store * list Event :=
  match fuel, polls with
  | O, _ | _, [] => (db, evs)
  | S fuel', (None, _) :: polls' => watch_loop fuel' wid rid polls' db evs
  | S fuel', (Some resp, now) :: polls' =>
      let '(db', evs', brk) := watch_poll wid rid resp now db in
      if brk then (db', app evs evs')
      else watch_loop fuel' wid rid polls' db' (app evs evs')
  end.

Definition max_attempts : nat := 1440.

Definition _monitor_workflow_run_impl (wid rid : string)
    (polls : list (option DagRunResponse * Z)) (db : Store)
    : Store * list Event :=
  watch_loop max_attempts wid rid polls db [].

End Orchestration.

(* ------------------------------------------------------------------ *)
(** ** Python floats (IEEE 754 doubles, rounding to nearest, ties to even) *)

Module Float64.
Local Open Scope Z_scope.

(** A Python float: a finite double, kept as its exact rational value, an
    infinity or NaN.  The sign of a zero is not tracked. *)
Inductive float := Fin (q : Q) | Inf (neg : bool) | NaN.

(** The exceptions raised by the float operations of the code. *)
Inductive FloatError := OverflowError | ZeroDivisionError.

(** [n / d] rounded to the nearest integer, ties to even ([d > 0]). *)
Definition div_round_even (n d : Z) : Z :=
  let q := n / d in
  let r := n mod d in
  if 2 * r <? d then q
  else if d <? 2 * r then q + 1
  else if Z.even q then q else q + 1.

(** [floor (log2 (n / d))] for [n, d > 0]. *)
Definition qlog2 (n d : Z) : Z :=
  let e := Z.log2 n - Z.log2 d in
  if 0 <=? e then (if n <? d * 2 ^ e then e - 1 else e)
  else (if n * 2 ^ (- e) <? d then e - 1 else e).

(** [n / d > 0] rounded to the nearest double, ties to even: 53
    significant bits, the last of weight at least [2^-1074]; [None] when
    the rounded value reaches [2^1024] (overflow to infinity). *)
Definition round_pos (n d : Z) : option Q :=
  let k := qlog2 n d in
  let e := Z.max (k - 52) (-1074) in
  if 0 <=? e then
    let m := div_round_even n (d * 2 ^ e) in
    if 2 ^ 1024 <=? m * 2 ^ e then None else Some (Qred (inject_Z (m * 2 ^ e)))
  else Some (Qred (div_round_even (n * 2 ^ (- e)) d # Z.to_pos (2 ^ (- e)))).

(** A rational rounded to a double. *)
Definition round (q : Q) : float :=
  if Qnum q =? 0 then Fin 0
  else if 0 <? Qnum q then
    match round_pos (Qnum q) (Zpos (Qden q)) with
    | Some v => Fin v | None => Inf false end
  else
    match round_pos (- Qnum q) (Zpos (Qden q)) with
    | Some v => Fin (- v) | None => Inf true end.

(** [a * b] *)
Definition fmul (a b : float) : float :=
  match a, b with
  | Fin x, Fin y => round (x * y)
  | Fin x, Inf s | Inf s, Fin x =>
      if Qeq_bool x 0 then NaN else Inf (xorb s (negb (Qle_bool 0 x)))
  | Inf s, Inf t => Inf (xorb s t)
  | _, _ => NaN
  end.

(** [a + b] *)
Definition fadd (a b : float) : float :=
  match a, b with
  | Fin x, Fin y => round (x + y)
  | Fin _, Inf s | Inf s, Fin _ => Inf s
  | Inf s, Inf t => if Bool.eqb s t then Inf s else NaN
  | _, _ => NaN
  end.

(** [a < b]; false when either is NaN. *)
Definition flt (a b : float) : bool :=
  match a, b with
  | Fin x, Fin y => negb (Qle_bool y x)
  | Inf true, Fin _ | Fin _, Inf false | Inf true, Inf false => true
  | _, _ => false
  end.

(** The builtin [min(a, b)]: [a] unless [b < a]. *)
Definition py_min (a b : float) : float := if flt b a then b else a.

(** [float(k)] of a Python int (correctly rounded; [OverflowError] when
    the rounded value is out of range). *)
Definition int_to_float (k : Z) : FloatError + float :=
  match round (inject_Z k) with
  | Inf _ => inl OverflowError
  | x => inr x
  end.

(** CPython's [float_pow] for a finite base [iv] and an integral
    exponent [iw]: [iw = 0] gives 1.0; a zero base raises
    [ZeroDivisionError] for a negative exponent and gives 0.0 otherwise;
    any other case is [pow(iv, iw)] of the C library, taken as correctly
    rounded, whose overflow raises [OverflowError].  An underflow gives
    the rounded value. *)
Definition float_pow_int (iv : Q) (iw : Z) : FloatError + float :=
  if iw =? 0 then inr (Fin 1)
  else if Qeq_bool iv 0 then
    (if iw <? 0 then inl ZeroDivisionError else inr (Fin 0))
  else match round (Qpower iv iw) with
       | Inf _ => inl OverflowError
       | x => inr x
       end.

(** [iv ** k] for a float [iv] and a Python int [k]: [float.__pow__]
    first converts [k] to a float, whose value is an integer. *)
Definition float_pow (iv : Q) (k : Z) : FloatError + float :=
  match int_to_float k with
  | inl err => inl err
  | inr (Fin w) => float_pow_int iv (Qfloor w)
  | inr _ => inl OverflowError
  end.

End Float64.

(* ------------------------------------------------------------------ *)
(** ** Resilience primitives ([app/core/retry.py]) *)

Module Resilience.

(** [RetryConfig]; the float fields are finite doubles (those of the
    code are small integers), kept as their exact values. *)
Record RetryConfig := mkRetryConfig {
  max_attempts : nat;
  delay : Q;
  backoff_factor : Q;
  max_delay : Q;
  jitter : bool;
}.

Definition EXTERNAL_SERVICE_RETRY : RetryConfig :=
  {| max_attempts := 3; delay := 2; backoff_factor := 2; max_delay := 30;
     jitter := true |}.

Import Float64.

(** Lines 32-33 of [calculate_delay]: the delay before jitter,
    [min(config.delay * (config.backoff_factor ** (attempt - 1)),
    config.max_delay)]; the power may raise. *)
Definition pre_jitter_delay (attempt : Z) (config : RetryConfig)
    : FloatError + float :=
  match float_pow (backoff_factor config) (attempt - 1) with
  | inl err => inl err
  | inr p => inr (py_min (fmul (Fin (delay config)) p) (Fin (max_delay config)))
  end.

(** [random.random()]: [k / 2^53] for the 53-bit integer [k] it draws. *)
Definition random_value (k : Z) : float := Fin (k # 9007199254740992).

(** [calculate_delay]; [rnd] is the integer drawn by [random.random()]:
    [delay *= 0.5 + random.random() * 0.5]. *)
Definition calculate_delay (attempt : Z) (config : RetryConfig) (rnd : Z)
    : FloatError + float :=
  match pre_jitter_delay attempt config with
  | inl err => inl err
  | inr d =>
      inr (if jitter config
           then fmul d (fadd (Fin (1#2)) (fmul (random_value rnd) (Fin (1#2))))
           else d)
  end.

(** [CircuitBreaker]; times in microseconds, [recovery_timeout] in
    seconds. *)
Inductive CBState := CLOSED | OPEN | HALF_OPEN.

Definition CBState_eqb (a b : CBState) : bool :=
  match a, b with
  | CLOSED, CLOSED | OPEN, OPEN | HALF_OPEN, HALF_OPEN => true
  | _, _ => false
  end.

Record CircuitBreaker := mkCB {
  failure_threshold : Z;
  recovery_timeout : Z;
  failure_count : Z;
  last_failure_time : option Z;
  state : CBState;
}.

Definition new_breaker (threshold timeout : Z) : CircuitBreaker :=
  {| failure_threshold := threshold; recovery_timeout := timeout;
     failure_count := 0; last_failure_time := None; state := CLOSED |}.

Definition airflow_circuit_breaker : CircuitBreaker := new_breaker 3 30.

Definition set_state (cb : CircuitBreaker) (s : CBState) : CircuitBreaker :=
  {| failure_threshold := failure_threshold cb;
     recovery_timeout := recovery_timeout cb;
     failure_count := failure_count cb;
     last_failure_time := last_failure_time cb; state := s |}.

(** [_should_attempt_reset]: [now - last_failure_time > timedelta(seconds=
    recovery_timeout)]; false when no failure was recorded. *)
Definition _should_attempt_reset (cb : CircuitBreaker) (now : Z) : bool :=
  match last_failure_time cb with
  | None => false
  | Some t => Z.ltb (recovery_timeout cb * 1000000)%Z (now - t)%Z
  end.

Definition _on_success (cb : CircuitBreaker) : CircuitBreaker :=
  {| failure_threshold := failure_threshold cb;
     recovery_timeout := recovery_timeout cb;
     failure_count := 0; last_failure_time := last_failure_time cb;
     state := CLOSED |}.

Definition _on_failure (cb : CircuitBreaker) (now : Z) : CircuitBreaker :=
  let n := (failure_count cb + 1)%Z in
  {| failure_threshold := failure_threshold cb;
     recovery_timeout := recovery_timeout cb;
     failure_count := n; last_failure_time := Some now;
     state := if Z.leb (failure_threshold cb) n then OPEN else state cb |}.

(** Outcome of the wrapped coroutine, and of one call through the breaker. *)
Inductive Outcome := Ok | Fail.

Inductive CallResult :=
| CircuitOpenError               (* [Exception("Circuit breaker is OPEN")] *)
| Invoked (o : Outcome).          (* the wrapped function ran *)

(** [CircuitBreaker.__call__]'s wrapper: [t_call] is the clock at the
    reset check, [t_done] the clock when the wrapped call returned, [o] what
    it returned if it is run. *)
Definition breaker_call (cb : CircuitBreaker) (t_call : Z) (o : Outcome)
    (t_done : Z) : CircuitBreaker * CallResult :=
  let gate :=
    match state cb with
    | OPEN => if _should_attempt_reset cb t_call
              then Some (set_state cb HALF_OPEN) else None
    | _ => Some cb
    end in
  match gate with
  | None => (cb, CircuitOpenError)
  | Some cb1 =>
      match o with
      | Ok => (_on_success cb1, Invoked Ok)
      | Fail => (_on_failure cb1 t_done, Invoked Fail)
      end
  end.

(** A sequence of calls [(t_call, outcome, t_done)]; returns the final
    breaker and the result of each call. *)
Fixpoint breaker_run (cb : CircuitBreaker) (calls : list (Z * Outcome * Z))
    : CircuitBreaker * list CallResult :=
  match calls with
  | [] => (cb, [])
  | (t, o, t') :: rest =>
      let '(cb1, r) := breaker_call cb t o t' in
      let '(cb2, rs) := breaker_run cb1 rest in
      (cb2, r :: rs)
  end.

Definition invoked (r : CallResult) : bool :=
  match r with Invoked _ => true | CircuitOpenError => false end.

(** The decorated [AirflowClient._make_request]:
    [with_retry(EXTERNAL_SERVICE_RETRY)] outside, [airflow_circuit_breaker]
    inside.  The environment records the clock, the shared breaker, the
    number of runs of the HTTP request and of passes through the breaker. *)
Record Env := mkEnv {
  clock : Z;
  breaker : CircuitBreaker;
  invocations : nat;
  breaker_checks : nat;
}.

(** The error a call ends with. *)
Inductive CallError := CircuitOpen | RequestFailed.

(** One attempt: the breaker wrapper around the HTTP request, whose
    [k]-th run ends with [request k] (taking no time). *)
Definition guarded_request (request : nat -> Outcome) (env : Env)
    : Env * option CallError :=
  let o := request (invocations env) in
  let '(cb', r) := breaker_call (breaker env) (clock env) o (clock env) in
  match r with
  | CircuitOpenError =>
      ({| clock := clock env; breaker := cb'; invocations := invocations env;
          breaker_checks := S (breaker_checks env) |}, Some CircuitOpen)
  | Invoked o' =>
      ({| clock := clock env; breaker := cb';
          invocations := S (invocations env);
          breaker_checks := S (breaker_checks env) |},
       match o' with Ok => None | Fail => Some RequestFailed end)
  end.

(** [retry_async]'s loop for [attempt in range(1, max_attempts + 1)]; every
    exception matches [config.exceptions] (it contains [Exception]).
    [sleep attempt] is the jittered delay slept after a failed attempt, in
    microseconds. *)
Fixpoint retry_loop (fuel : nat) (attempt : nat) (config : RetryConfig)
    (sleep : nat -> Z) (request : nat -> Outcome) (env : Env)
    : Env * option CallError :=
  match fuel with
  | O => (env, None)
  | S fuel' =>
      let '(env', r) := guarded_request request env in
      match r with
      | None => (env', None)
      | Some e =>
          if Nat.eqb attempt (max_attempts config) then (env', Some e)
          else retry_loop fuel' (S attempt) config sleep request
                 {| clock := (clock env' + sleep attempt)%Z;
                    breaker := breaker env'; invocations := invocations env';
                    breaker_checks := breaker_checks env' |}
      end
  end.

Definition retry_async (config : RetryConfig) (sleep : nat -> Z)
    (request : nat -> Outcome) (env : Env) : Env * option CallError :=
  retry_loop (max_attempts config) 1 config sleep request env.

Definition _make_request (sleep : nat -> Z) (request : nat -> Outcome)
    (env : Env) : Env * option CallError :=
  retry_async EXTERNAL_SERVICE_RETRY sleep request env.

End Resilience.

(* ------------------------------------------------------------------ *)
(** ** DAG chain controller ([app/application/tasks/dag_chain_tasks.py]) *)

Module Chain.

Definition DAG_EXECUTION_CHAIN : list string :=
  ["data_processing_pipeline"; "ml_training_pipeline";
   "simple_workflow_example"].

(** [dict.get] and [dict.update] with one key, on an association list. *)
Fixpoint dict_lookup (d : params) (k : string) : option PValue :=
  match d with
  | [] => None
  | (k', v) :: d' => if String.eqb k k' then Some v else dict_lookup d' k
  end.

Fixpoint dict_set (d : params) (k : string) (v : PValue) : params :=
  match d with
  | [] => [(k, v)]
  | (k', v') :: d' =>
      if String.eqb k k' then (k', v) :: d' else (k', v') :: dict_set d' k v
  end.

(** The observable effects of the chain tasks, in order. *)
Inductive ChainAction :=
| SetRunStatus (s : WorkflowStatus)            (* [uow.workflow_runs.update] *)
| TriggerCall (dag_id : string) (ps : params)  (* [trigger_workflow(command)] *)
| ScheduleMonitor (dag_index : nat)            (* [monitor_dag_chain_completion.apply_async] *)
| SetTaskStatus (s : TaskStatus).              (* [update_task_status] *)

(** [_trigger_next_dag].  [workflow_ok]: [get_or_create_workflow] returned;
    [trigger_ok]: [trigger_workflow] returned; an exception of either is
    caught and sets the task FAILED.  The model covers the calls in which
    [update_task_status] and [apply_async] return; an exception of those
    (which the caller's [except] catches) is not modelled. *)
Definition _trigger_next_dag (chain : list string) (dag_index : nat)
    (original_parameters : params) (workflow_ok trigger_ok : bool)
    : list ChainAction :=
  match nth_error chain dag_index with
  | None => []
  | Some next_dag_id =>
      if negb workflow_ok then [SetTaskStatus T_FAILED] else
      let next_parameters :=
        dict_set
          (dict_set
             (dict_set original_parameters "dag_chain_index" (PNat dag_index))
             "dag_chain_total" (PNat (length chain)))
          "next_dag"
          (match nth_error chain (S dag_index) with
           | Some d => PStr d | None => PNone end) in
      TriggerCall next_dag_id next_parameters ::
      (if trigger_ok then [ScheduleMonitor dag_index]
       else [SetTaskStatus T_FAILED])
  end.

(** The [for check_count in range(total_checks)] loop of
    [_monitor_dag_completion_async], for a run that is found in the
    database with status [cur] and parameters [ps].  Each element of [obs]
    is one Airflow query ([None]: it raised and the loop goes on).  The
    model covers iterations whose database writes, [_trigger_next_dag] and
    [update_task_status] return; an exception escaping the success or
    failed branch, which the loop's [except] catches before it polls
    again, is not modelled. *)
Fixpoint monitor_loop (fuel : nat) (chain : list string) (dag_index : nat)
    (cur : WorkflowStatus) (ps : params) (workflow_ok trigger_ok : bool)
    (obs : list (option DagRunResponse)) : list ChainAction :=
  match fuel, obs with
  | O, _ | _, [] => []
  | S fuel', None :: obs' =>
      monitor_loop fuel' chain dag_index cur ps workflow_ok trigger_ok obs'
  | S fuel', Some resp :: obs' =>
      let continue_with st :=
        monitor_loop fuel' chain dag_index st ps workflow_ok trigger_ok obs' in
      match resp_state resp with
      | None => continue_with cur
      | Some airflow_state =>
          if String.eqb airflow_state "success" then
            SetRunStatus SUCCESS ::
            (if Nat.ltb (S dag_index) (length chain)
             then _trigger_next_dag chain (S dag_index) ps workflow_ok trigger_ok
             else [SetTaskStatus COMPLETED])
          else if String.eqb airflow_state "failed" then
            [SetRunStatus FAILED; SetTaskStatus T_FAILED]
          else if String.eqb airflow_state "running"
                  || String.eqb airflow_state "queued" then
            let current_status :=
              if String.eqb airflow_state "running" then RUNNING else QUEUED in
            if decide (cur = current_status) then continue_with cur
            else SetRunStatus current_status :: continue_with current_status
          else continue_with cur
      end
  end.

Definition total_checks : nat := Nat.div (60 * 60) 30.

Definition monitor_chain (chain : list string) (dag_index : nat)
    (cur : WorkflowStatus) (ps : params) (workflow_ok trigger_ok : bool)
    (obs : list (option DagRunResponse)) : list ChainAction :=
  monitor_loop total_checks chain dag_index cur ps workflow_ok trigger_ok obs.

Definition _monitor_dag_completion_async :=
  monitor_chain DAG_EXECUTION_CHAIN.

Fixpoint trigger_calls (acts : list ChainAction) : list (string * params) :=
  match acts with
  | [] => []
  | TriggerCall d ps :: acts' => (d, ps) :: trigger_calls acts'
  | _ :: acts' => trigger_calls acts'
  end.

(** The observation does not end the loop. *)
Definition non_terminal_obs (o : option DagRunResponse) : bool :=
  match o with
  | Some resp =>
      match resp_state resp with
      | Some airflow_state =>
          negb (String.eqb airflow_state "success" ||
                String.eqb airflow_state "failed")
      | None => true
      end
  | None => true
  end.

End Chain.

(* ------------------------------------------------------------------ *)
(** ** Run identifiers of [WorkflowUseCases.trigger_workflow] *)

Module RunId.

(** A [datetime] value, field by field. *)
Record DateTime := mkDateTime {
  year : nat; month : nat; day : nat;
  hour : nat; minute : nat; second : nat; microsecond : nat;
}.

Definition digit (n : nat) : Ascii.ascii := Ascii.ascii_of_nat (48 + n).

(** The last [w] decimal digits of [n], zero-padded. *)
Fixpoint pad_num (w n : nat) : string :=
  match w with
  | O => ""
  | S w' => pad_num w' (Nat.div n 10) ++ String (digit (Nat.modulo n 10)) ""
  end.

(** [strftime('%Y%m%d_%H%M%S')]. *)
Definition strftime_run_id (dt : DateTime) : string :=
  pad_num 4 (year dt) ++ pad_num 2 (month dt) ++ pad_num 2 (day dt) ++ "_" ++
  pad_num 2 (hour dt) ++ pad_num 2 (minute dt) ++ pad_num 2 (second dt).

Record TriggerWorkflowCommand := mkCmd {
  cmd_workflow_id : string;
  cmd_triggered_by : option nat;
  cmd_task_id : option nat;
  cmd_dataset_id : option nat;
  cmd_parameters : params;
  cmd_note : option string;
}.

(** What [trigger_workflow] reads from the unit of work: the DAG id of a
    workflow, and whether a task / dataset id exists. *)
Record Repos := mkRepos {
  workflow_dag_id : string -> option string;
  task_exists : nat -> bool;
  dataset_exists : nat -> bool;
}.

(** Python truthiness of an optional integer id ([if command.task_id:]). *)
Definition truthy (o : option nat) : option nat :=
  match o with Some (S _ as n) => Some n | _ => None end.

Definition opt_nat (o : option nat) : PValue :=
  match o with Some n => PNat n | None => PNone end.

Definition opt_str (o : option string) : PValue :=
  match o with Some s => PStr s | None => PNone end.

(** The payload handed to [_make_request] by [AirflowClient.trigger_dag]. *)
Record TriggerPayload := mkPayload {
  pl_dag_id : string;
  pl_dag_run_id : string;
  pl_conf : params;
}.

(** [AirflowClient.trigger_dag]: [dag_run_id or f"api_trigger_{utc iso}"];
    [utc_iso] is [datetime.now(timezone.utc).isoformat()]. *)
Definition trigger_dag (dag_id : string) (dag_run_id : option string)
    (conf : params) (utc_iso : string) : TriggerPayload :=
  {| pl_dag_id := dag_id;
     pl_dag_run_id :=
       match dag_run_id with
       | Some s => if String.eqb s "" then "api_trigger_" ++ utc_iso else s
       | None => "api_trigger_" ++ utc_iso
       end;
     pl_conf := conf |}.

(** [trigger_workflow] up to the external call: [None] when a lookup raises
    [EntityNotFound]; otherwise the payload sent to Airflow.  [now] is
    [datetime.now()] at line 83.  The task and dataset sub-dictionaries of
    the configuration are left out of [conf]. *)
Definition trigger_workflow (db : Repos) (command : TriggerWorkflowCommand)
    (now : DateTime) (utc_iso : string) : option TriggerPayload :=
  match workflow_dag_id db (cmd_workflow_id command) with
  | None => None
  | Some dag_id =>
      let task_ok := match truthy (cmd_task_id command) with
                     | Some t => task_exists db t | None => true end in
      let dataset_ok := match truthy (cmd_dataset_id command) with
                        | Some d => dataset_exists db d | None => true end in
      if negb task_ok then None else if negb dataset_ok then None else
      let run_id := "api_trigger_" ++ strftime_run_id now in
      let airflow_conf :=
        [("task_id", opt_nat (cmd_task_id command));
         ("dataset_id", opt_nat (cmd_dataset_id command));
         ("parameters", PDict (cmd_parameters command));
         ("triggered_by", opt_nat (cmd_triggered_by command));
         ("note", opt_str (cmd_note command))] in
      Some (trigger_dag dag_id (Some run_id) airflow_conf utc_iso)
  end.

(** Two clock readings in the same second. *)
Definition same_second (a b : DateTime) : Prop :=
  year a = year b /\ month a = month b /\ day a = day b /\
  hour a = hour b /\ minute a = minute b /\ second a = second b.

End RunId.

(* ------------------------------------------------------------------ *)
(** ** Run states reachable through the core operations *)

Module Lifecycle.

(** A run is created by [trigger_workflow] and then changed only by the
    watch's database step, the status-read command, stop and retry. *)
Inductive reachable : WorkflowRun -> Prop :=
| reach_trigger rid wid ps : reachable (new_run rid wid ps)
| reach_watch r resp now : reachable r -> reachable (watch_apply r resp now)
| reach_sync r s resp now : reachable r -> reachable (sync_apply r s resp now)
| reach_stop r now : reachable r -> reachable (stop_apply r now)
| reach_retry r now : reachable r -> reachable (retry_apply r now).

End Lifecycle.

(* ------------------------------------------------------------------ *)
(** ** The loop of [retry_async] *)

Module RetryLoop.
Import Resilience Float64.

(** What one call of the wrapped function does. *)
Inductive Result (A E : Type) := Return (a : A) | Throw (e : E).
Arguments Return {A E} a.
Arguments Throw {A E} e.

(** How the loop ends: with the function's value, by raising an exception
    of the function, by [raise last_exception] with
    [last_exception = None] (a [TypeError]), or by the exception raised by
    [calculate_delay] inside the [except] clause. *)
Inductive RetryOutcome (A E : Type) :=
| Returned (a : A) | Reraised (e : E) | RaiseNone | DelayRaised (err : FloatError).
Arguments Returned {A E} a.
Arguments Reraised {A E} e.
Arguments RaiseNone {A E}.
Arguments DelayRaised {A E} err.

Section Loop.
Context {A E : Type}.
(** [isinstance(e, config.exceptions)]; an exception outside the tuple is
    re-raised at once, by [except Exception: raise] or uncaught. *)
Variable config : RetryConfig.
Variable retryable : E -> bool.
(** What the call made at attempt [n] does. *)
Variable func : nat -> Result A E.
(** The integer drawn by [random.random()] in [calculate_delay] at
    attempt [n]. *)
Variable rnd : nat -> Z.

(** [for attempt in range(1, config.max_attempts + 1)] from [attempt] on,
    with [fuel] iterations left.  Returns how the loop ends, the number of
    calls of [func] and the delays passed to [asyncio.sleep], in order. *)
Fixpoint retry_from (fuel attempt : nat) (last_exception : option E)
    : RetryOutcome A E * nat * list float :=
  match fuel with
  | O => (match last_exception with
          | Some e => Reraised e
          | None => RaiseNone
          end, O, [])
  | S fuel' =>
      match func attempt with
      | Return a => (Returned a, 1, [])
      | Throw e =>
          if retryable e then
            if Nat.eqb attempt (max_attempts config) then (Reraised e, 1, [])
            else
              match calculate_delay (Z.of_nat attempt) config (rnd attempt) with
              | inl err => (DelayRaised err, 1, [])
              | inr d =>
                  let '(o, n, ds) := retry_from fuel' (S attempt) (Some e) in
                  (o, S n, d :: ds)
              end
          else (Reraised e, 1, [])
      end
  end.

Definition retry_run : RetryOutcome A E * nat * list float :=
  retry_from (max_attempts config) 1 None.

End Loop.

End RetryLoop.

(* ------------------------------------------------------------------ *)
(** ** Workflow rows: [Workflow], [create_workflow], [get_or_create_workflow] *)

Module Workflows.

(** [str.isspace] on the code points 0-255 (a Rocq [ascii] read as a
    Latin-1 code point): [\t\n\x0b\x0c\r], [\x1c]-[\x1f], space, [\x85],
    [\xa0]. *)
Definition py_isspace (c : Ascii.ascii) : bool :=
  let n := Ascii.nat_of_ascii c in
  (((9 <=? n) && (n <=? 13)) || ((28 <=? n) && (n <=? 32)) ||
   (n =? 133) || (n =? 160))%nat.

Fixpoint drop_space (l : list Ascii.ascii) : list Ascii.ascii :=
  match l with
  | [] => []
  | c :: l' => if py_isspace c then drop_space l' else l
  end.

(** [str.strip()]. *)
Definition py_strip (s : string) : string :=
  string_of_list_ascii
    (rev (drop_space (rev (drop_space (list_ascii_of_string s))))).

(** [not s or len(s.strip()) < 1]: the test of [Workflow.__post_init__];
    [WorkflowId] and [WorkflowRunId] test [not s or not s.strip()], the same
    condition. *)
Definition blank (s : string) : bool :=
  String.eqb s "" || Nat.ltb (String.length (py_strip s)) 1.

(** A row of the [workflows] table; [wf_id] comes from the table's
    sequence. *)
Record WorkflowRow := mkWorkflowRow {
  wf_id : nat;
  wf_name : string;
  wf_description : option string;
  wf_dag_id : string;
  wf_created_by : option Z;
}.

Record WorkflowTable := mkWorkflowTable {
  rows : list WorkflowRow;
  next_id : nat;
}.

Inductive WfError :=
| ValueError            (* [Workflow.__post_init__] *)
| ValidationError       (* [UserId.__post_init__] *)
| MultipleResultsFound. (* [scalar_one_or_none] on two or more rows *)

(** [SQLAlchemyWorkflowRepository.get_by_dag_id]: [dag_id] carries no
    unique constraint, and [scalar_one_or_none] raises on several rows. *)
Definition get_by_dag_id (t : WorkflowTable) (dag_id : string)
    : WfError + option WorkflowRow :=
  match List.filter (fun r => String.eqb (wf_dag_id r) dag_id) (rows t) with
  | [] => inr None
  | [r] => inr (Some r)
  | _ => inl MultipleResultsFound
  end.

(** [SQLAlchemyWorkflowRepository.create]: insert, the id drawn from the
    sequence. *)
Definition create (t : WorkflowTable) (name : string)
    (description : option string) (dag_id : string) (created_by : option Z)
    : WorkflowTable * WorkflowRow :=
  let r := mkWorkflowRow (next_id t) name description dag_id created_by in
  (mkWorkflowTable (app (rows t) [r]) (S (next_id t)), r).

(** [WorkflowUseCases.create_workflow]. *)
Definition create_workflow (t : WorkflowTable) (name : string)
    (description : option string) (dag_id : string)
    (created_by_id : option Z) : WorkflowTable * (WfError + WorkflowRow) :=
  (* [UserId(command.created_by_id) if command.created_by_id else None] *)
  let created_by :=
    match created_by_id with
    | None => inr None
    | Some n =>
        if Z.eqb n 0 then inr None
        else if Z.leb n 0 then inl ValidationError else inr (Some n)
    end in
  match created_by with
  | inl e => (t, inl e)
  | inr cb =>
      if blank name then (t, inl ValueError)
      else if blank dag_id then (t, inl ValueError)
      else let '(t', r) := create t name description dag_id cb in (t', inr r)
  end.

(** [WorkflowUseCases.get_or_create_workflow]. *)
Definition get_or_create_workflow (t : WorkflowTable) (name : string)
    (dag_id : string) (description : option string)
    (created_by_id : option Z) : WorkflowTable * (WfError + WorkflowRow) :=
  match get_by_dag_id t dag_id with
  | inl e => (t, inl e)
  | inr (Some w) => (t, inr w)
  | inr None => create_workflow t name description dag_id created_by_id
  end.

End Workflows.

(* ------------------------------------------------------------------ *)
(** ** [WorkflowUseCases.trigger_workflow] with the Airflow call and the
       insert of the run *)

Module TriggerUseCase.
Import Orchestration RunId.

(** The fields of the Airflow response that [trigger_workflow] reads;
    [tr_execution_date = None] when [execution_date] is missing or cannot
    be parsed (the access raises). *)
Record TriggerResponse := mkTriggerResponse {
  tr_dag_run_id : string;
  tr_execution_date : option Z;
}.

(** [runs] is the [workflow_runs] table keyed by its primary key (the run
    id); [airflow p] is the outcome of [AirflowClient.trigger_dag] for the
    payload [p] ([None]: it raised).  Returns the table, the payloads sent
    to Airflow, the events, and the result. *)
Definition trigger_workflow_run (has_publisher : bool) (db : Repos)
    (runs : Store) (command : TriggerWorkflowCommand) (now : DateTime)
    (utc_iso : string) (airflow : TriggerPayload -> option TriggerResponse)
    : Store * list TriggerPayload * list Event * (Error + WorkflowRun) :=
  match RunId.trigger_workflow db command now utc_iso with
  | None => (runs, [], [], inl EntityNotFound)
  | Some p =>
      (* inside [try: ... except Exception: raise ExternalServiceError] *)
      match airflow p with
      | None => (runs, [p], [], inl ExternalServiceError)
      | Some resp =>
          let rid := tr_dag_run_id resp in
          if Workflows.blank rid then (runs, [p], [], inl ExternalServiceError)
          else match tr_execution_date resp with
          | None => (runs, [p], [], inl ExternalServiceError)
          | Some _ =>
              match runs !! rid with
              | Some _ =>
                  (* the INSERT violates the primary key; the unit of work
                     rolls back *)
                  (runs, [p], [], inl ExternalServiceError)
              | None =>
                  let r := new_run rid (cmd_workflow_id command)
                             (cmd_parameters command) in
                  (<[rid := r]> runs, [p],
                   (if has_publisher then [EvTriggered (pl_dag_id p) rid]
                    else []),
                   inr r)
              end
          end
      end
  end.

End TriggerUseCase.

(* ------------------------------------------------------------------ *)
(** ** [_monitor_active_workflows_impl] *)

Module ActiveRuns.
Import Orchestration.

Definition active_statuses : list WorkflowStatus :=
  [QUEUED; RUNNING; UP_FOR_RETRY; UP_FOR_RESCHEDULE; SCHEDULED].

(** [SQLAlchemyWorkflowRunRepository.list_by_status]: the rows (run id,
    run) whose status is in [statuses]. *)
Definition list_by_status (db : Store) (statuses : list WorkflowStatus)
    : list (string * WorkflowRun) :=
  List.filter
    (fun kr => List.existsb
                 (fun s => if decide (status kr.2 = s) then true else false)
                 statuses)
    (map_to_list db).

(** The [monitor_workflow_run.delay(workflow_id, run_id)] calls made. *)
Definition _monitor_active_workflows_impl (db : Store)
    : list (string * string) :=
  map (fun kr => (run_workflow_id kr.2, kr.1))
      (list_by_status db active_statuses).

End ActiveRuns.

(* ------------------------------------------------------------------ *)
(** ** Successive monitors of [dag_chain_tasks.py] *)

Module ChainRun.
Import Chain.

Fixpoint task_updates (acts : list ChainAction) : list TaskStatus :=
  match acts with
  | [] => []
  | SetTaskStatus s :: acts' => s :: task_updates acts'
  | _ :: acts' => task_updates acts'
  end.

(** The monitor scheduled by [_trigger_next_dag] right after its trigger
    call, with the parameters of the run that call created. *)
Fixpoint scheduled_next (acts : list ChainAction) : option (nat * params) :=
  match acts with
  | [] => None
  | a :: acts' =>
      match a, acts' with
      | TriggerCall _ ps, ScheduleMonitor j :: _ => Some (j, ps)
      | _, _ => scheduled_next acts'
      end
  end.

(** [monitor_dag_chain_completion] tasks run one after the other: each
    element of [stages] is the observation list of one monitor.  The run
    created by [trigger_workflow] starts QUEUED and its
    [configuration.parameters] are the parameters of the trigger call. *)
Fixpoint run_chain (chain : list string) (idx : nat) (cur : WorkflowStatus)
    (ps : params) (w t : bool) (stages : list (list (option DagRunResponse)))
    : list ChainAction :=
  match stages with
  | [] => []
  | obs :: stages' =>
      let acts := monitor_chain chain idx cur ps w t obs in
      app acts (match scheduled_next acts with
                | Some (j, ps') => run_chain chain j QUEUED ps' w t stages'
                | None => []
                end)
  end.

End ChainRun.

(* ------------------------------------------------------------------ *)
(** ** The chaining task of [workflow_tasks.py]:
       [trigger_next_dag_after_completion] / [_trigger_next_dag_impl] *)

Module ChainTask.

(** The observable effects, in order. *)
Inductive ImplAction :=
| ITrigger (dag_id : string) (ps : params)
    (* [trigger_workflow(command)] returned a run *)
| IScheduleNext (current_dag_id next_dag_id : string) (ps : params)
    (* [trigger_next_dag_after_completion.delay(...)] *)
| ITaskStatus (s : TaskStatus).
    (* [update_task_status] returned *)

(** The string the coroutine returns. *)
Inductive ImplResult := Triggered | ChainStopped | TimedOut.

(** One iteration of the loop: the status query ([None]: it raised), and
    whether each later call of the iteration returns or raises. *)
Record ImplStep := mkStep {
  st_query : option DagRunResponse;
  st_workflow_ok : bool;   (* [get_or_create_workflow] *)
  st_trigger_ok : bool;    (* [trigger_workflow] *)
  st_followup_ok : bool;   (* [.delay(...)] or [update_task_status] *)
}.

(** [for i, dag_id in enumerate(DAG_EXECUTION_CHAIN): if dag_id ==
    next_dag_id: current_dag_index = i; break] *)
Fixpoint chain_index (chain : list string) (d : string) : option nat :=
  match chain with
  | [] => None
  | x :: xs => if String.eqb x d then Some 0 else option_map S (chain_index xs d)
  end.

(** The loop [for _ in range((max_wait_minutes * 60) // check_interval)];
    every exception inside the body is caught, logged, and the loop goes
    on. *)
Fixpoint impl_loop (fuel : nat) (chain : list string)
    (next_dag_id : string) (parameters : params) (steps : list ImplStep)
    : list ImplAction * ImplResult :=
  match fuel, steps with
  | O, _ | _, [] => ([], TimedOut)
  | S fuel', s :: steps' =>
      let continue_with (acts : list ImplAction) :=
        let '(acts', r) := impl_loop fuel' chain next_dag_id parameters steps' in
        (app acts acts', r) in
      match st_query s with
      | None => continue_with []
      | Some resp =>
          match resp_state resp with
          | None => continue_with []
          | Some state =>
              if String.eqb state "success" then
                if negb (st_workflow_ok s) then continue_with [] else
                if negb (st_trigger_ok s) then continue_with [] else
                let trig := ITrigger next_dag_id parameters in
                (* [current_dag_index is not None and current_dag_index + 1
                   < len(DAG_EXECUTION_CHAIN)] *)
                match match chain_index chain next_dag_id with
                      | Some i => nth_error chain (S i)
                      | None => None
                      end with
                | Some next_next_dag_id =>
                    if st_followup_ok s
                    then ([trig; IScheduleNext next_dag_id next_next_dag_id
                                   parameters], Triggered)
                    else continue_with [trig]
                | None =>
                    if st_followup_ok s
                    then ([trig; ITaskStatus COMPLETED], Triggered)
                    else continue_with [trig]
                end
              else if String.eqb state "failed" ||
                      String.eqb state "up_for_retry" ||
                      String.eqb state "upstream_failed" then
                if st_followup_ok s then ([ITaskStatus T_FAILED], ChainStopped)
                else continue_with []
              else continue_with []
          end
      end
  end.

Definition impl_checks : nat := Nat.div (30 * 60) 10.

Definition _trigger_next_dag_impl (next_dag_id : string)
    (parameters : params) (steps : list ImplStep)
    : list ImplAction * ImplResult :=
  impl_loop impl_checks Chain.DAG_EXECUTION_CHAIN next_dag_id parameters steps.

(** The parameters [execute_task] (presentation/api/tasks.py) builds:
    [{**execution_request.parameters, "dag_index": i, "dag_total":
    len(DAG_EXECUTION_CHAIN)}]. *)
Definition execute_params (request : params) (i : nat) : params :=
  Chain.dict_set (Chain.dict_set request "dag_index" (PNat i))
    "dag_total" (PNat (length Chain.DAG_EXECUTION_CHAIN)).

(** The chaining tasks run one after the other: each element of [stages]
    is the step list of one [trigger_next_dag_after_completion] task; the
    one scheduled by [IScheduleNext] runs next. *)
Fixpoint impl_chain (next_dag_id : string) (parameters : params)
    (stages : list (list ImplStep)) : list ImplAction :=
  match stages with
  | [] => []
  | steps :: stages' =>
      let '(acts, _) := _trigger_next_dag_impl next_dag_id parameters steps in
      app acts
        (match List.last acts (ITaskStatus PENDING) with
         | IScheduleNext _ nn ps => impl_chain nn ps stages'
         | _ => []
         end)
  end.

End ChainTask.

(* ================================================================== *)
(** * Properties *)

(* ------------------------------------------------------------------ *)
(** ** Status mapping *)

Example map_airflow_status_skipped : _map_airflow_status "skipped" = SKIPPED.
Proof. reflexivity. Qed.

Example map_airflow_status_other : _map_airflow_status "deferred" = QUEUED.
Proof. reflexivity. Qed.

(** Claim C6: the mapping from Airflow state strings is total; each of the
    ten known strings maps to the like-named status, and every other string
    maps to QUEUED, which is not terminal. *)
Theorem map_airflow_status_total :
  _map_airflow_status "queued" = QUEUED /\
  _map_airflow_status "running" = RUNNING /\
  _map_airflow_status "success" = SUCCESS /\
  _map_airflow_status "failed" = FAILED /\
  _map_airflow_status "up_for_retry" = UP_FOR_RETRY /\
  _map_airflow_status "up_for_reschedule" = UP_FOR_RESCHEDULE /\
  _map_airflow_status "upstream_failed" = UPSTREAM_FAILED /\
  _map_airflow_status "skipped" = SKIPPED /\
  _map_airflow_status "removed" = REMOVED /\
  _map_airflow_status "scheduled" = SCHEDULED /\
  (forall s : string,
     ~ In s ["queued"; "running"; "success"; "failed"; "up_for_retry";
             "up_for_reschedule"; "upstream_failed"; "skipped"; "removed";
             "scheduled"] ->
     _map_airflow_status s = QUEUED /\
     is_terminal (_map_airflow_status s) = false).
Proof.
  do 10 (split; [reflexivity |]).
  intros s Hs;
  (assert (Hq : _map_airflow_status s = QUEUED);
   [ unfold _map_airflow_status; simpl;
     repeat match goal with
            | |- context [String.eqb s ?k] =>
                destruct (String.eqb_spec s k) as [->|_];
                [exfalso; apply Hs; simpl; tauto |]
            end;
     reflexivity
   | rewrite Hq; split; reflexivity ]).
Qed.

(* ------------------------------------------------------------------ *)
(** ** Retry backoff *)

Module FloatFacts.
Import Float64.
Local Open Scope Z_scope.


Lemma div_round_even_ge (n d : Z) : 0 < d -> n / d <= div_round_even n d.
Proof.
  intros Hd. unfold div_round_even.
  destruct (2 * (n mod d) <? d), (d <? 2 * (n mod d)), (Z.even (n / d)); lia.
Qed.

Lemma div_round_even_exact (n d : Z) : 0 < d -> n mod d = 0 -> div_round_even n d = n / d.
Proof.
  intros Hd H. unfold div_round_even. rewrite H.
  replace (2 * 0 <? d) with true by (symmetry; apply Z.ltb_lt; lia). reflexivity.
Qed.

Lemma qlog2_int (k : Z) : 1 <= k -> qlog2 k 1 = Z.log2 k.
Proof.
  intros Hk. unfold qlog2. change (Z.log2 1) with 0. rewrite Z.sub_0_r.
  pose proof (Z.log2_nonneg k). pose proof (Z.log2_spec k ltac:(lia)).
  replace (0 <=? Z.log2 k) with true by (symmetry; apply Z.leb_le; lia).
  replace (k <? 1 * 2 ^ Z.log2 k) with false by (symmetry; apply Z.ltb_ge; lia).
  reflexivity.
Qed.

(** A power of two from [2^1024] on rounds to infinity. *)
Lemma round_pow2_overflow (j : Z) : 1024 <= j -> round (inject_Z (2 ^ j)) = Inf false.
Proof.
  intros Hj. unfold round. cbn [Qnum Qden inject_Z].
  assert (Hp : 0 < 2 ^ j) by (apply Z.pow_pos_nonneg; lia).
  replace (2 ^ j =? 0) with false by (symmetry; apply Z.eqb_neq; lia).
  replace (0 <? 2 ^ j) with true by (symmetry; apply Z.ltb_lt; lia).
  unfold round_pos. rewrite qlog2_int by lia. rewrite Z.log2_pow2 by lia.
  replace (Z.max (j - 52) (-1074)) with (j - 52) by lia.
  replace (0 <=? j - 52) with true by (symmetry; apply Z.leb_le; lia).
  assert (Hs : 2 ^ j = 2 ^ 52 * 2 ^ (j - 52))
    by (rewrite <- Z.pow_add_r by lia; f_equal; lia).
  assert (He : 0 < 2 ^ (j - 52)) by (apply Z.pow_pos_nonneg; lia).
  rewrite div_round_even_exact; rewrite Z.mul_1_l.
  - rewrite Hs, Z.div_mul by lia. rewrite <- Hs.
    replace (2 ^ 1024 <=? 2 ^ j) with true; [reflexivity |].
    symmetry. apply Z.leb_le. apply Z.pow_le_mono_r; lia.
  - exact He.
  - rewrite Hs. apply Z.mod_mul. lia.
Qed.

(** An integer from 1024 on converts to a float whose value is at least
    1024, or overflows. *)
Lemma int_to_float_ge (k : Z) : 1024 <= k ->
  int_to_float k = inl OverflowError \/
  exists w, int_to_float k = inr (Fin w) /\ 1024 <= Qfloor w.
Proof.
  intros Hk. unfold int_to_float, round. cbn [Qnum Qden inject_Z].
  replace (k =? 0) with false by (symmetry; apply Z.eqb_neq; lia).
  replace (0 <? k) with true by (symmetry; apply Z.ltb_lt; lia).
  unfold round_pos. rewrite qlog2_int by lia.
  pose proof (Z.log2_spec k ltac:(lia)) as [Hl Hu].
  assert (HL : 10 <= Z.log2 k).
  { replace 10 with (Z.log2 (2 ^ 10)) by (apply Z.log2_pow2; lia).
    apply Z.log2_le_mono. simpl. lia. }
  replace (Z.max (Z.log2 k - 52) (-1074)) with (Z.log2 k - 52) by lia.
  destruct (Z.leb_spec 0 (Z.log2 k - 52)) as [Hnn | Hneg].
  - set (e := Z.log2 k - 52) in *.
    assert (He : 0 < 2 ^ e) by (apply Z.pow_pos_nonneg; lia).
    rewrite Z.mul_1_l.
    destruct (2 ^ 1024 <=? div_round_even k (2 ^ e) * 2 ^ e); [left; reflexivity |].
    right. eexists. split; [reflexivity |].
    rewrite (Qfloor_comp _ _ (Qred_correct _)), Qfloor_Z.
    pose proof (div_round_even_ge k (2 ^ e) He) as Hm.
    assert (H52 : 2 ^ 52 <= k / 2 ^ e).
    { apply Z.div_le_lower_bound; [exact He |].
      rewrite <- Z.pow_add_r by lia. replace (e + 52) with (Z.log2 k) by lia. exact Hl. }
    assert (Hb : 1024 <= 2 ^ 52) by (simpl; lia).
    nia.
  - right. eexists. split; [reflexivity |].
    rewrite (Qfloor_comp _ _ (Qred_correct _)).
    set (j := - (Z.log2 k - 52)).
    assert (Hj : 0 < 2 ^ j) by (apply Z.pow_pos_nonneg; lia).
    rewrite div_round_even_exact by (try lia; apply Z.mod_1_r).
    rewrite Z.div_1_r.
    unfold Qfloor. rewrite Z2Pos.id by exact Hj.
    rewrite Z.div_mul by lia. exact Hk.
Qed.




Lemma pos_pow_1_l (p : positive) : Pos.pow 1 p = 1%positive.
Proof.
  induction p using Pos.peano_ind; [reflexivity |].
  rewrite Pos.pow_succ_r, IHp. reflexivity.
Qed.

Lemma Qred_inject_Z (z : Z) : Qred (inject_Z z) = inject_Z z.
Proof.
  unfold Qred, inject_Z.
  pose proof (Z.ggcd_gcd z 1) as Hg. pose proof (Z.ggcd_correct_divisors z 1) as Hd.
  destruct (Z.ggcd z 1) as [g [aa bb]]. simpl in *.
  rewrite Z.gcd_1_r in Hg. subst g. destruct Hd as [Ha Hb].
  rewrite Z.mul_1_l in Ha, Hb. subst. reflexivity.
Qed.

(** Powers of two up to [2^1023] are doubles. *)
Lemma round_pow2_exact (j : Z) : 0 <= j <= 1023 ->
  round (inject_Z (2 ^ j)) = Fin (inject_Z (2 ^ j)).
Proof.
  intros Hj. unfold round. cbn [Qnum Qden inject_Z].
  assert (Hp : 0 < 2 ^ j) by (apply Z.pow_pos_nonneg; lia).
  replace (2 ^ j =? 0) with false by (symmetry; apply Z.eqb_neq; lia).
  replace (0 <? 2 ^ j) with true by (symmetry; apply Z.ltb_lt; lia).
  unfold round_pos. rewrite qlog2_int by lia. rewrite Z.log2_pow2 by lia.
  replace (Z.max (j - 52) (-1074)) with (j - 52) by lia.
  destruct (Z.leb_spec 0 (j - 52)) as [Hnn | Hneg].
  - assert (Hs : 2 ^ j = 2 ^ 52 * 2 ^ (j - 52))
      by (rewrite <- Z.pow_add_r by lia; f_equal; lia).
    assert (He : 0 < 2 ^ (j - 52)) by (apply Z.pow_pos_nonneg; lia).
    rewrite Z.mul_1_l, div_round_even_exact.
    + rewrite Hs, Z.div_mul by lia. rewrite <- Hs.
      replace (2 ^ 1024 <=? 2 ^ j) with false.
      * rewrite Qred_inject_Z. reflexivity.
      * symmetry. apply Z.leb_gt. apply Z.pow_lt_mono_r; lia.
    + exact He.
    + rewrite Hs. apply Z.mod_mul. lia.
  - assert (He : 0 < 2 ^ (- (j - 52))) by (apply Z.pow_pos_nonneg; lia).
    rewrite div_round_even_exact by (try lia; apply Z.mod_1_r).
    rewrite Z.div_1_r. f_equal.
    rewrite <- (Qred_inject_Z (2 ^ j)). apply Qred_complete.
    unfold Qeq. simpl Qnum. simpl Qden. rewrite Z2Pos.id by exact He. lia.
Qed.

(** Integers below [2^52] convert exactly. *)
Lemma int_to_float_small (k : Z) : 1 <= k < 2 ^ 52 ->
  exists w, int_to_float k = inr (Fin w) /\ Qfloor w = k.
Proof.
  intros Hk. unfold int_to_float, round. cbn [Qnum Qden inject_Z].
  replace (k =? 0) with false by (symmetry; apply Z.eqb_neq; lia).
  replace (0 <? k) with true by (symmetry; apply Z.ltb_lt; lia).
  unfold round_pos. rewrite qlog2_int by lia.
  assert (HL : Z.log2 k < 52) by (apply Z.log2_lt_pow2; lia).
  pose proof (Z.log2_nonneg k).
  replace (Z.max (Z.log2 k - 52) (-1074)) with (Z.log2 k - 52) by lia.
  replace (0 <=? Z.log2 k - 52) with false by (symmetry; apply Z.leb_gt; lia).
  eexists. split; [reflexivity |].
  rewrite (Qfloor_comp _ _ (Qred_correct _)).
  set (j := - (Z.log2 k - 52)).
  assert (Hj : 0 < 2 ^ j) by (apply Z.pow_pos_nonneg; lia).
  rewrite div_round_even_exact by (try lia; apply Z.mod_1_r).
  rewrite Z.div_1_r.
  unfold Qfloor. rewrite Z2Pos.id by exact Hj.
  rewrite Z.div_mul by lia. reflexivity.
Qed.

(** [2.0 ** k] is exact for [0 <= k <= 1023]. *)
Lemma float_pow_two_exact (k : Z) : 0 <= k <= 1023 ->
  float_pow 2 k = inr (Fin (inject_Z (2 ^ k))).
Proof.
  intros Hk. destruct (Z.eq_dec k 0) as [-> | Hk0]; [reflexivity |].
  unfold float_pow.
  assert (Hb : 1023 < 2 ^ 52) by (simpl; lia).
  destruct (int_to_float_small k ltac:(lia)) as (w & -> & Hw).
  unfold float_pow_int. rewrite Hw.
  replace (k =? 0) with false by (symmetry; apply Z.eqb_neq; lia).
  replace (Qeq_bool 2 0) with false by reflexivity.
  destruct k as [| p | p]; try lia.
  unfold Qpower. change (2%Q) with (2 # 1)%Q.
  rewrite Qpower_decomp_positive, pos_pow_1_l.
  change (2 ^ Z.pos p # 1)%Q with (inject_Z (2 ^ Z.pos p)).
  rewrite round_pow2_exact by lia. reflexivity.
Qed.

(** With base 2.0, an exponent from 1024 on raises [OverflowError]. *)
Lemma float_pow_two_overflow (k : Z) : 1024 <= k -> float_pow 2 k = inl OverflowError.
Proof.
  intros Hk. unfold float_pow.
  destruct (int_to_float_ge k Hk) as [-> | (w & -> & Hw)]; [reflexivity |].
  unfold float_pow_int.
  replace (Qfloor w =? 0)%Z with false by (symmetry; apply Z.eqb_neq; lia).
  replace (Qeq_bool 2 0) with false by reflexivity.
  destruct (Qfloor w) as [| p | p] eqn:Ew; try lia.
  unfold Qpower. change (2%Q) with (2 # 1)%Q.
  rewrite Qpower_decomp_positive, pos_pow_1_l.
  change (2 ^ Z.pos p # 1)%Q with (inject_Z (2 ^ Z.pos p)).
  rewrite round_pow2_overflow by lia. reflexivity.
Qed.


End FloatFacts.

Module BackoffFacts.
Import Resilience Float64 FloatFacts.

Lemma pre_jitter_delay_capped (n : Z) :
  (5 <= n <= 1024)%Z -> pre_jitter_delay n EXTERNAL_SERVICE_RETRY = inr (Fin 30).
Proof.
  intros Hn. unfold pre_jitter_delay.
  cbn [backoff_factor delay max_delay EXTERNAL_SERVICE_RETRY].
  rewrite float_pow_two_exact by lia.
  unfold fmul. change (2 * inject_Z (2 ^ (n - 1)))%Q with (inject_Z (2 * 2 ^ (n - 1))).
  replace (2 * 2 ^ (n - 1))%Z with (2 ^ n)%Z
    by (rewrite <- Z.pow_succ_r by lia; f_equal; lia).
  destruct (Z.eq_dec n 1024%Z) as [-> | Hne].
  - rewrite round_pow2_overflow by lia. reflexivity.
  - rewrite round_pow2_exact by lia.
    unfold py_min, flt. unfold Qle_bool. cbn [Qnum Qden inject_Z].
    replace (2 ^ n * 1 <=? 30 * 1)%Z with false; [reflexivity |].
    symmetry. apply Z.leb_gt.
    assert (2 ^ 5 <= 2 ^ n)%Z by (apply Z.pow_le_mono_r; lia). simpl in *. lia.
Qed.

Lemma pre_jitter_delay_overflow (n : Z) :
  (1025 <= n)%Z -> pre_jitter_delay n EXTERNAL_SERVICE_RETRY = inl OverflowError.
Proof.
  intros Hn. unfold pre_jitter_delay. cbn [backoff_factor EXTERNAL_SERVICE_RETRY].
  rewrite float_pow_two_overflow by lia. reflexivity.
Qed.

Lemma calculate_delay_overflow (n rnd : Z) :
  (1025 <= n)%Z -> calculate_delay n EXTERNAL_SERVICE_RETRY rnd = inl OverflowError.
Proof.
  intros Hn. unfold calculate_delay. rewrite pre_jitter_delay_overflow by exact Hn.
  reflexivity.
Qed.

Lemma backoff_first_four :
  map (fun n => pre_jitter_delay n EXTERNAL_SERVICE_RETRY) [1;2;3;4]%Z
  = [inr (Fin 2); inr (Fin 4); inr (Fin 8); inr (Fin 16)].
Proof. vm_compute. reflexivity. Qed.

End BackoffFacts.

(** Claim C9 does not hold for every attempt: at attempt 1025,
    [2.0 ** 1024] overflows and [calculate_delay] raises [OverflowError]
    instead of returning the capped delay 30. *)
Lemma calculate_delay_overflows_at_1025 :
  Resilience.calculate_delay 1025 Resilience.EXTERNAL_SERVICE_RETRY 0
  = inl Float64.OverflowError /\
  ~ (forall n : Z, (5 <= n)%Z ->
       Resilience.pre_jitter_delay n Resilience.EXTERNAL_SERVICE_RETRY
       = inr (Float64.Fin 30)).
Proof.
  split.
  - apply BackoffFacts.calculate_delay_overflow. lia.
  - intros H. specialize (H 1025%Z ltac:(lia)).
    rewrite BackoffFacts.pre_jitter_delay_overflow in H by lia. discriminate.
Qed.

(** Claim C9 (as the code behaves): with [EXTERNAL_SERVICE_RETRY] (delay
    2.0, factor 2.0, cap 30.0), the pre-jitter delays of [calculate_delay],
    computed in doubles, are 2, 4, 8, 16 for attempts 1 to 4 and 30 for
    every attempt from 5 to 1024 (at 1024 the product overflows to
    infinity and [min] gives 30), so they are capped and non-decreasing
    over attempts 1 to 1024; from attempt 1025 on [2.0 ** (attempt - 1)]
    raises [OverflowError], and so does [calculate_delay]. *)
Theorem backoff_delays_capped_until_overflow :
  map (fun n => Resilience.pre_jitter_delay n Resilience.EXTERNAL_SERVICE_RETRY)
      [1;2;3;4]%Z
  = [inr (Float64.Fin 2); inr (Float64.Fin 4); inr (Float64.Fin 8);
     inr (Float64.Fin 16)] /\
  (forall n : Z, (5 <= n <= 1024)%Z ->
     Resilience.pre_jitter_delay n Resilience.EXTERNAL_SERVICE_RETRY
     = inr (Float64.Fin 30)) /\
  (forall n : Z, (1 <= n < 1024)%Z ->
     exists a b : Q,
       Resilience.pre_jitter_delay n Resilience.EXTERNAL_SERVICE_RETRY
       = inr (Float64.Fin a) /\
       Resilience.pre_jitter_delay (n + 1) Resilience.EXTERNAL_SERVICE_RETRY
       = inr (Float64.Fin b) /\ (a <= b)%Q) /\
  (forall n rnd : Z, (1025 <= n)%Z ->
     Resilience.pre_jitter_delay n Resilience.EXTERNAL_SERVICE_RETRY
     = inl Float64.OverflowError /\
     Resilience.calculate_delay n Resilience.EXTERNAL_SERVICE_RETRY rnd
     = inl Float64.OverflowError).
Proof.
  assert (E1 : Resilience.pre_jitter_delay 1 Resilience.EXTERNAL_SERVICE_RETRY
               = inr (Float64.Fin 2)) by (vm_compute; reflexivity).
  assert (E2 : Resilience.pre_jitter_delay 2 Resilience.EXTERNAL_SERVICE_RETRY
               = inr (Float64.Fin 4)) by (vm_compute; reflexivity).
  assert (E3 : Resilience.pre_jitter_delay 3 Resilience.EXTERNAL_SERVICE_RETRY
               = inr (Float64.Fin 8)) by (vm_compute; reflexivity).
  assert (E4 : Resilience.pre_jitter_delay 4 Resilience.EXTERNAL_SERVICE_RETRY
               = inr (Float64.Fin 16)) by (vm_compute; reflexivity).
  split; [exact BackoffFacts.backoff_first_four |].
  split; [exact BackoffFacts.pre_jitter_delay_capped |].
  split.
  - intros n Hn.
    assert (Hc : n = 1%Z \/ n = 2%Z \/ n = 3%Z \/ n = 4%Z \/ (5 <= n)%Z) by lia.
    destruct Hc as [-> | [-> | [-> | [-> | Hc]]]].
    + exists 2%Q, 4%Q. split; [exact E1 | split; [exact E2 | unfold Qle; simpl; lia]].
    + exists 4%Q, 8%Q. split; [exact E2 | split; [exact E3 | unfold Qle; simpl; lia]].
    + exists 8%Q, 16%Q. split; [exact E3 | split; [exact E4 | unfold Qle; simpl; lia]].
    + exists 16%Q, 30%Q. split; [exact E4 |].
      split; [apply BackoffFacts.pre_jitter_delay_capped; lia | unfold Qle; simpl; lia].
    + exists 30%Q, 30%Q.
      split; [apply BackoffFacts.pre_jitter_delay_capped; lia |].
      split; [apply BackoffFacts.pre_jitter_delay_capped; lia | apply Qle_refl].
  - intros n rnd Hn. split.
    + apply BackoffFacts.pre_jitter_delay_overflow; exact Hn.
    + apply BackoffFacts.calculate_delay_overflow; exact Hn.
Qed.

Lemma backoff_delays_capped_until_overflow_witness :
  Resilience.pre_jitter_delay 700 Resilience.EXTERNAL_SERVICE_RETRY
  = inr (Float64.Fin 30) /\
  Resilience.calculate_delay 2000 Resilience.EXTERNAL_SERVICE_RETRY 5
  = inl Float64.OverflowError.
Proof.
  destruct backoff_delays_capped_until_overflow as (_ & Hcap & _ & Hov).
  split.
  - apply Hcap. lia.
  - apply (Hov 2000%Z 5%Z). lia.
Defined.

(* ------------------------------------------------------------------ *)
(** ** Run identifiers *)

Example strftime_run_id_sample :
  RunId.strftime_run_id (RunId.mkDateTime 2024 3 7 9 5 1 77)
  = "20240307_090501".
Proof. reflexivity. Qed.

Lemma strftime_run_id_same_second (a b : RunId.DateTime) :
  RunId.same_second a b ->
  RunId.strftime_run_id a = RunId.strftime_run_id b.
Proof.
  intros (Hy & Hm & Hd & Hh & Hmi & Hs). unfold RunId.strftime_run_id.
  rewrite Hy, Hm, Hd, Hh, Hmi, Hs. reflexivity.
Qed.

Lemma trigger_workflow_run_id (db : RunId.Repos)
    (c : RunId.TriggerWorkflowCommand) (now : RunId.DateTime)
    (iso : string) (p : RunId.TriggerPayload) :
  RunId.trigger_workflow db c now iso = Some p ->
  RunId.pl_dag_run_id p = "api_trigger_" ++ RunId.strftime_run_id now.
Proof.
  unfold RunId.trigger_workflow.
  destruct (RunId.workflow_dag_id db (RunId.cmd_workflow_id c)); [| discriminate].
  destruct (match RunId.truthy (RunId.cmd_task_id c) with
            | Some t => RunId.task_exists db t | None => true end); [| discriminate].
  destruct (match RunId.truthy (RunId.cmd_dataset_id c) with
            | Some d => RunId.dataset_exists db d | None => true end); [| discriminate].
  simpl. intros H. injection H as <-. reflexivity.
Qed.

(** Claim C10: the run id sent to Airflow by [trigger_workflow] is
    ["api_trigger_"] followed by the local clock formatted as
    [%Y%m%d_%H%M%S]; it depends on nothing else, so two trigger commands
    served in the same clock second (whatever their workflow, task,
    dataset, parameters or caller) send the same run id. *)
Theorem trigger_run_id_collides_within_second
    (db1 db2 : RunId.Repos) (c1 c2 : RunId.TriggerWorkflowCommand)
    (t1 t2 : RunId.DateTime) (iso1 iso2 : string)
    (p1 p2 : RunId.TriggerPayload) :
  RunId.same_second t1 t2 ->
  RunId.trigger_workflow db1 c1 t1 iso1 = Some p1 ->
  RunId.trigger_workflow db2 c2 t2 iso2 = Some p2 ->
  RunId.pl_dag_run_id p1 = "api_trigger_" ++ RunId.strftime_run_id t1 /\
  RunId.pl_dag_run_id p1 = RunId.pl_dag_run_id p2.
Proof.
  intros Hs H1 H2.
  rewrite (trigger_workflow_run_id _ _ _ _ _ H1),
          (trigger_workflow_run_id _ _ _ _ _ H2).
  split; [reflexivity |].
  rewrite (strftime_run_id_same_second _ _ Hs). reflexivity.
Qed.

Definition sample_repos : RunId.Repos :=
  {| RunId.workflow_dag_id := fun w =>
       if String.eqb w "1" then Some "data_processing_pipeline"
       else if String.eqb w "2" then Some "ml_training_pipeline" else None;
     RunId.task_exists := fun t => Nat.eqb t 7;
     RunId.dataset_exists := fun _ => true |}.

Definition sample_cmd1 : RunId.TriggerWorkflowCommand :=
  RunId.mkCmd "1" (Some 1) (Some 7) None [("epochs", PNat 3)] None.

Definition sample_cmd2 : RunId.TriggerWorkflowCommand :=
  RunId.mkCmd "2" (Some 2) None (Some 4) [] (Some "nightly").

Lemma trigger_run_id_collides_within_second_witness :
  exists p1 p2,
    RunId.trigger_workflow sample_repos sample_cmd1
      (RunId.mkDateTime 2024 3 7 9 5 1 77) "a" = Some p1 /\
    RunId.trigger_workflow sample_repos sample_cmd2
      (RunId.mkDateTime 2024 3 7 9 5 1 999) "b" = Some p2 /\
    RunId.pl_dag_run_id p1 = RunId.pl_dag_run_id p2.
Proof.
  eexists. eexists. split; [reflexivity |]. split; [reflexivity |].
  apply (trigger_run_id_collides_within_second sample_repos sample_repos
           sample_cmd1 sample_cmd2
           (RunId.mkDateTime 2024 3 7 9 5 1 77)
           (RunId.mkDateTime 2024 3 7 9 5 1 999) "a" "b").
  - unfold RunId.same_second; simpl; repeat split.
  - reflexivity.
  - reflexivity.
Defined.

(* ------------------------------------------------------------------ *)
(** ** Stop command *)

Module StopFacts.
Import Orchestration.

Definition running_run : WorkflowRun :=
  {| run_id := "run_1"; run_workflow_id := "1"; status := RUNNING;
     start_date := Some 100%Z; end_date := None; run_parameters := [] |}.

Definition store_1 : Store := {[ "run_1" := running_run ]}.

End StopFacts.

(** Claim C1 does not hold: when the Airflow cancel call
    ([patch_dag_run]) fails, [stop_workflow_run] raises
    [ExternalServiceError] before touching the run: the stored status stays
    RUNNING and no stopped event is published. *)
Lemma stop_cancel_failure_blocks_local_update :
  let '(db', evs, res) :=
    Orchestration.stop_workflow_run true false 500 StopFacts.store_1
      "data_processing_pipeline" "run_1" in
  option_map status (db' !! "run_1") = Some RUNNING /\ evs = [] /\
  res = inl Orchestration.ExternalServiceError.
Proof. vm_compute. repeat split. Qed.

(** Claim C1 (as the code behaves): on an existing run, when the cancel
    call succeeds, StopRun stores the run with status FAILED (and
    [end_date] stamped) and publishes one stopped event if a publisher is
    configured; when the cancel call fails, it raises
    [ExternalServiceError] and leaves the store and the events unchanged. *)
Theorem stop_run_forces_failed_after_cancel
    (has_publisher : bool) (now : Z) (db : gmap string WorkflowRun)
    (wid rid : string) (r : WorkflowRun) :
  db !! rid = Some r ->
  (let '(db', evs, res) :=
     Orchestration.stop_workflow_run has_publisher true now db wid rid in
   option_map status (db' !! rid) = Some FAILED /\
   option_map end_date (db' !! rid) = Some (Some now) /\
   evs = (if has_publisher then [Orchestration.EvStopped wid rid] else []) /\
   res = inr (stop_apply r now)) /\
  Orchestration.stop_workflow_run has_publisher false now db wid rid
  = (db, [], inl Orchestration.ExternalServiceError).
Proof.
  intros Hr. split; [| reflexivity].
  unfold Orchestration.stop_workflow_run; simpl. rewrite Hr.
  rewrite lookup_insert_eq. simpl. repeat split.
Qed.

Lemma stop_run_forces_failed_after_cancel_witness :
  StopFacts.store_1 !! "run_1" = Some StopFacts.running_run /\
  Orchestration.stop_workflow_run true false 500 StopFacts.store_1
    "data_processing_pipeline" "run_1"
  = (StopFacts.store_1, [], inl Orchestration.ExternalServiceError).
Proof.
  assert (H : StopFacts.store_1 !! "run_1" = Some StopFacts.running_run)
    by reflexivity.
  split; [exact H |].
  exact (proj2 (stop_run_forces_failed_after_cancel true 500 StopFacts.store_1
                  "data_processing_pipeline" "run_1" StopFacts.running_run H)).
Defined.

(* ------------------------------------------------------------------ *)
(** ** Applying an observed state *)

Module RunFacts.

Lemma apply_resp_dates_status (r : WorkflowRun) (resp : DagRunResponse) :
  status (apply_resp_dates r resp) = status r.
Proof.
  unfold apply_resp_dates.
  destruct (resp_start_date resp), (resp_end_date resp); reflexivity.
Qed.

Lemma apply_resp_dates_end (r : WorkflowRun) (resp : DagRunResponse) :
  end_date r <> None -> end_date (apply_resp_dates r resp) <> None.
Proof.
  unfold apply_resp_dates.
  destruct (resp_start_date resp), (resp_end_date resp); simpl;
    auto; discriminate.
Qed.

Lemma update_status_status (r : WorkflowRun) (s : WorkflowStatus) (now : Z) :
  status (update_status r s now) = s.
Proof. reflexivity. Qed.

Lemma update_status_end (r : WorkflowRun) (s : WorkflowStatus) (now : Z) :
  s = SUCCESS \/ s = FAILED -> end_date (update_status r s now) = Some now.
Proof. intros [-> | ->]; reflexivity. Qed.

Lemma watch_apply_status (r : WorkflowRun) (resp : DagRunResponse) (now : Z) :
  status (watch_apply r resp now) = _map_airflow_status (state_or_unknown resp).
Proof. unfold watch_apply. rewrite apply_resp_dates_status. reflexivity. Qed.

Definition resp_running : DagRunResponse := mkResp (Some "running") None None.

Definition failed_run : WorkflowRun :=
  {| run_id := "run_1"; run_workflow_id := "1"; status := FAILED;
     start_date := Some 100%Z; end_date := Some 500%Z; run_parameters := [] |}.

Definition store_failed : gmap string WorkflowRun :=
  {[ "run_1" := failed_run ]}.

End RunFacts.

Create HintDb runfacts.
Create Rewrite HintDb runfacts.
#[export] Hint Resolve RunFacts.apply_resp_dates_end : runfacts.
#[export] Hint Rewrite RunFacts.apply_resp_dates_status
  RunFacts.update_status_status : runfacts.

(** Claim C2 does not hold: after StopRun has stored FAILED, a watch poll
    that observes ["running"] writes RUNNING over it. *)
Lemma watch_stale_running_overwrites_failed :
  let '(db', _) :=
    Orchestration._monitor_workflow_run_impl "data_processing_pipeline"
      "run_1" [(Some RunFacts.resp_running, 600%Z)] RunFacts.store_failed in
  option_map status (RunFacts.store_failed !! "run_1") = Some FAILED /\
  option_map status (db' !! "run_1") = Some RUNNING.
Proof. vm_compute. split; reflexivity. Qed.

(** Claim C2 (as the code behaves): the watch's database step
    ([_update_workflow_run_status]) replaces the stored status of a run by
    the status mapped from the observed Airflow state, whatever the stored
    status is; a terminal stored status is not protected. *)
Theorem watch_apply_overwrites_stored_status
    (rid : string) (resp : DagRunResponse) (now : Z)
    (db : gmap string WorkflowRun) (r : WorkflowRun) :
  db !! rid = Some r ->
  Orchestration._update_workflow_run_status rid resp now db !! rid
  = Some (watch_apply r resp now) /\
  status (watch_apply r resp now) = _map_airflow_status (state_or_unknown resp).
Proof.
  intros Hr. unfold Orchestration._update_workflow_run_status.
  rewrite Hr, lookup_insert_eq. split; [reflexivity |].
  apply RunFacts.watch_apply_status.
Qed.

Lemma watch_apply_overwrites_stored_status_witness :
  RunFacts.store_failed !! "run_1" = Some RunFacts.failed_run /\
  status (watch_apply RunFacts.failed_run RunFacts.resp_running 600)
  = RUNNING.
Proof.
  assert (H : RunFacts.store_failed !! "run_1" = Some RunFacts.failed_run)
    by reflexivity.
  split; [exact H |].
  exact (proj2 (watch_apply_overwrites_stored_status "run_1"
                  RunFacts.resp_running 600 RunFacts.store_failed
                  RunFacts.failed_run H)).
Defined.

(* ------------------------------------------------------------------ *)
(** ** Idempotence of the two reconciliation paths *)

Module IdemFacts.
Import Orchestration.

Lemma get_status_idempotent (wf : bool) (resp : DagRunResponse) (now now' : Z)
    (db db1 : gmap string WorkflowRun) (rid : string) (r1 : WorkflowRun) :
  get_workflow_run_status wf (Some resp) now db rid = (db1, inr r1) ->
  get_workflow_run_status wf (Some resp) now' db1 rid = (db1, inr r1).
Proof.
  unfold get_workflow_run_status.
  destruct (db !! rid) as [r |] eqn:Hr; [| discriminate].
  destruct wf; [| discriminate]. simpl.
  destruct (resp_state resp) as [s |]; [| discriminate].
  destruct (decide (status r = _map_airflow_status s)) as [Heq | Hne].
  - intros H. injection H as <- <-. rewrite Hr.
    destruct (decide (status r = _map_airflow_status s)); [reflexivity | contradiction].
  - intros H. injection H as <- <-. rewrite lookup_insert_eq.
    assert (Hs : status (sync_apply r s resp now) = _map_airflow_status s).
    { unfold sync_apply.
      destruct (decide (status r = _map_airflow_status s)); [contradiction |].
      autorewrite with runfacts. reflexivity. }
    destruct (decide (status (sync_apply r s resp now) = _map_airflow_status s));
      [reflexivity | contradiction].
Qed.

Definition started_events (wid rid : string) (ts : list Z) : list Event :=
  concat (map (fun _ => [EvStarted wid rid; NotifyStarted wid rid]) ts).

Lemma watch_loop_running_polls (resp : DagRunResponse) (wid rid : string) :
  resp_state resp = Some "running" ->
  forall (ts : list Z) (fuel : nat) (db : gmap string WorkflowRun)
         (evs : list Event),
  length ts <= fuel ->
  exists db', watch_loop fuel wid rid (map (fun t => (Some resp, t)) ts) db evs
              = (db', app evs (started_events wid rid ts)).
Proof.
  intros Hs ts. induction ts as [| t ts IH]; intros fuel db evs Hlen.
  - exists db. destruct fuel; simpl; rewrite app_nil_r; reflexivity.
  - destruct fuel as [| fuel]; [simpl in Hlen; lia |]. simpl.
    unfold watch_poll, state_or_unknown. rewrite Hs. simpl.
    destruct (IH fuel (_update_workflow_run_status rid resp t db)
                (app evs [EvStarted wid rid; NotifyStarted wid rid]))
      as [db' Hdb']; [simpl in Hlen; lia |].
    exists db'. rewrite Hdb'. rewrite <- app_assoc. reflexivity.
Qed.

Definition two_running_polls : list (option DagRunResponse * Z) :=
  [(Some RunFacts.resp_running, 600%Z); (Some RunFacts.resp_running, 630%Z)].

End IdemFacts.

(** Claim C3 does not hold for the watch loop: two polls that observe the
    same ["running"] state publish two started events (and two started
    notifications). *)
Lemma watch_same_state_twice_publishes_twice :
  snd (Orchestration._monitor_workflow_run_impl "data_processing_pipeline"
         "run_1" IdemFacts.two_running_polls StopFacts.store_1)
  = [Orchestration.EvStarted "data_processing_pipeline" "run_1";
     Orchestration.NotifyStarted "data_processing_pipeline" "run_1";
     Orchestration.EvStarted "data_processing_pipeline" "run_1";
     Orchestration.NotifyStarted "data_processing_pipeline" "run_1"].
Proof. vm_compute. reflexivity. Qed.

(** Claim C3 (as the code behaves): in the synchronous status-read path,
    applying the same observed state a second time changes neither the
    store nor the returned run (that path publishes no event).  The watch
    loop does not compare before publishing: each poll that observes
    ["running"] publishes one more started event and notification. *)
Theorem status_read_idempotent_watch_republishes :
  (forall (wf : bool) (resp : DagRunResponse) (now now' : Z)
          (db db1 : gmap string WorkflowRun) (rid : string) (r1 : WorkflowRun),
     Orchestration.get_workflow_run_status wf (Some resp) now db rid
     = (db1, inr r1) ->
     Orchestration.get_workflow_run_status wf (Some resp) now' db1 rid
     = (db1, inr r1)) /\
  (forall (resp : DagRunResponse) (wid rid : string) (ts : list Z)
          (db : gmap string WorkflowRun),
     resp_state resp = Some "running" ->
     length ts <= Orchestration.max_attempts ->
     exists db',
       Orchestration._monitor_workflow_run_impl wid rid
         (map (fun t => (Some resp, t)) ts) db
       = (db', IdemFacts.started_events wid rid ts)).
Proof.
  split.
  - exact IdemFacts.get_status_idempotent.
  - intros resp wid rid ts db Hs Hlen.
    exact (IdemFacts.watch_loop_running_polls resp wid rid Hs ts _ db [] Hlen).
Qed.

Lemma status_read_idempotent_watch_republishes_witness :
  Orchestration.get_workflow_run_status true (Some RunFacts.resp_running) 700
    (<[ "run_1" := sync_apply RunFacts.failed_run "running"
                     RunFacts.resp_running 600 ]> RunFacts.store_failed)
    "run_1"
  = (<[ "run_1" := sync_apply RunFacts.failed_run "running"
                     RunFacts.resp_running 600 ]> RunFacts.store_failed,
     inr (sync_apply RunFacts.failed_run "running" RunFacts.resp_running 600))
  /\
  exists db',
    Orchestration._monitor_workflow_run_impl "data_processing_pipeline" "run_1"
      (map (fun t => (Some RunFacts.resp_running, t)) [600; 630]%Z)
      StopFacts.store_1
    = (db', IdemFacts.started_events "data_processing_pipeline" "run_1"
              [600; 630]%Z).
Proof.
  destruct status_read_idempotent_watch_republishes as [Hsync Hwatch].
  split.
  - apply (Hsync true RunFacts.resp_running 600%Z 700%Z RunFacts.store_failed).
    vm_compute. reflexivity.
  - apply Hwatch; [reflexivity | vm_compute; lia].
Defined.

(* ------------------------------------------------------------------ *)
(** ** [end_date] along reachable run states *)

Module LifecycleFacts.
Import Lifecycle.

Definition stopped_then_polled : WorkflowRun :=
  watch_apply (stop_apply (new_run "run_1" "1" []) 500) RunFacts.resp_running 600.

Lemma stopped_then_polled_reachable : reachable stopped_then_polled.
Proof. apply reach_watch, reach_stop, reach_trigger. Qed.

Definition resp_skipped : DagRunResponse := mkResp (Some "skipped") None None.

Definition skipped_new_run : WorkflowRun :=
  watch_apply (new_run "run_1" "1" []) resp_skipped 600.

Lemma skipped_new_run_reachable : reachable skipped_new_run.
Proof. apply reach_watch, reach_trigger. Qed.

Lemma update_status_end_kept (r : WorkflowRun) (s : WorkflowStatus) (now : Z) :
  end_date r <> None -> end_date (update_status r s now) <> None.
Proof. intros H. destruct s; simpl; auto; discriminate. Qed.

Lemma apply_unstamped_end (r : WorkflowRun) (m : WorkflowStatus)
    (resp : DagRunResponse) (now : Z) :
  m <> SUCCESS -> m <> FAILED -> resp_end_date resp = None ->
  end_date (apply_resp_dates (update_status r m now) resp) = end_date r.
Proof.
  intros H1 H2 He. unfold apply_resp_dates. rewrite He.
  destruct (resp_start_date resp); destruct m; cbn; congruence.
Qed.

End LifecycleFacts.

(** Claim C5 does not hold in either direction: a run stopped (FAILED,
    [end_date] set) and then polled while Airflow still reports
    ["running"] is RUNNING, not terminal, with [end_date] still set; a new
    run polled while Airflow reports ["skipped"] with no end date is
    SKIPPED, a terminal status, with [end_date] unset. *)
Lemma end_date_not_tied_to_terminal :
  ~ (forall r : WorkflowRun, Lifecycle.reachable r ->
       end_date r <> None -> is_terminal (status r) = true) /\
  ~ (forall r : WorkflowRun, Lifecycle.reachable r ->
       is_terminal (status r) = true -> end_date r <> None).
Proof.
  split; intros H.
  - specialize (H _ LifecycleFacts.stopped_then_polled_reachable).
    vm_compute in H. specialize (H ltac:(discriminate)). discriminate.
  - specialize (H _ LifecycleFacts.skipped_new_run_reachable).
    vm_compute in H. exact (H eq_refl eq_refl).
Qed.

(** Claim C5 (as the code behaves): in every run state reachable through
    trigger, the watch's and the status read's application of an observed
    state, stop and retry, a run whose status is SUCCESS or FAILED has
    [end_date] set; trigger and retry leave [end_date] unset.  Once set,
    [end_date] stays set through the watch's and the status read's
    application of an observed state and through stop, so only retry
    clears it: a stopped run later observed ["running"] is a reachable
    RUNNING run with [end_date] set.  An observed state that maps to
    neither SUCCESS nor FAILED, with no end date in the response, leaves
    [end_date] as it was: a new run observed ["skipped"] is a reachable
    SKIPPED run with [end_date] unset. *)
Theorem reachable_end_date_facts :
  (forall r : WorkflowRun, Lifecycle.reachable r ->
     status r = SUCCESS \/ status r = FAILED -> end_date r <> None) /\
  (forall rid wid ps, end_date (new_run rid wid ps) = None) /\
  (forall r now, end_date (retry_apply r now) = None) /\
  (forall r resp s now, end_date r <> None ->
     end_date (watch_apply r resp now) <> None /\
     end_date (sync_apply r s resp now) <> None /\
     end_date (stop_apply r now) <> None) /\
  (forall r resp now,
     _map_airflow_status (state_or_unknown resp) <> SUCCESS ->
     _map_airflow_status (state_or_unknown resp) <> FAILED ->
     resp_end_date resp = None ->
     end_date (watch_apply r resp now) = end_date r) /\
  (forall r s resp now,
     _map_airflow_status s <> SUCCESS -> _map_airflow_status s <> FAILED ->
     resp_end_date resp = None ->
     end_date (sync_apply r s resp now) = end_date r) /\
  (Lifecycle.reachable LifecycleFacts.stopped_then_polled /\
   status LifecycleFacts.stopped_then_polled = RUNNING /\
   end_date LifecycleFacts.stopped_then_polled <> None) /\
  (Lifecycle.reachable LifecycleFacts.skipped_new_run /\
   status LifecycleFacts.skipped_new_run = SKIPPED /\
   end_date LifecycleFacts.skipped_new_run = None).
Proof.
  split; [| split; [reflexivity | split; [reflexivity | split; [| split; [| split]]]]].
  - intros r Hr. induction Hr as [rid wid ps | r resp now _ IH
                                 | r s resp now _ IH | r now _ IH | r now _ IH];
      intros Hs.
    + destruct Hs as [Hs | Hs]; discriminate.
    + unfold watch_apply in *. autorewrite with runfacts in Hs.
      apply RunFacts.apply_resp_dates_end.
      rewrite RunFacts.update_status_end by exact Hs. discriminate.
    + unfold sync_apply in *.
      destruct (decide (status r = _map_airflow_status s)); [auto |].
      autorewrite with runfacts in Hs.
      apply RunFacts.apply_resp_dates_end.
      rewrite RunFacts.update_status_end by exact Hs. discriminate.
    + discriminate.
    + destruct Hs as [Hs | Hs]; discriminate.
  - intros r resp s now H. split; [| split].
    + apply RunFacts.apply_resp_dates_end, LifecycleFacts.update_status_end_kept, H.
    + unfold sync_apply. destruct (decide _); [exact H |].
      apply RunFacts.apply_resp_dates_end, LifecycleFacts.update_status_end_kept, H.
    + apply LifecycleFacts.update_status_end_kept, H.
  - intros r resp now H1 H2 He.
    apply LifecycleFacts.apply_unstamped_end; assumption.
  - intros r s resp now H1 H2 He. unfold sync_apply.
    destruct (decide _); [reflexivity |].
    apply LifecycleFacts.apply_unstamped_end; assumption.
  - split.
    + split; [exact LifecycleFacts.stopped_then_polled_reachable |].
      vm_compute. split; [reflexivity | discriminate].
    + split; [exact LifecycleFacts.skipped_new_run_reachable |].
      vm_compute. split; reflexivity.
Qed.

Lemma reachable_end_date_facts_witness :
  end_date (stop_apply (new_run "run_1" "1" []) 500) <> None /\
  end_date (watch_apply (stop_apply (new_run "run_1" "1" []) 500)
              RunFacts.resp_running 600) <> None /\
  end_date (watch_apply RunFacts.failed_run LifecycleFacts.resp_skipped 700)
  = end_date RunFacts.failed_run /\
  end_date (sync_apply RunFacts.failed_run "removed" LifecycleFacts.resp_skipped 700)
  = end_date RunFacts.failed_run.
Proof.
  destruct reachable_end_date_facts as (Hsf & _ & _ & Hkeep & Hw & Hs & _).
  split; [| split; [| split]].
  - apply Hsf; [apply Lifecycle.reach_stop, Lifecycle.reach_trigger | right; reflexivity].
  - refine (proj1 (Hkeep (stop_apply (new_run "run_1" "1" []) 500)
                          RunFacts.resp_running "running" 600%Z _)).
    vm_compute. discriminate.
  - apply Hw; vm_compute; first [reflexivity | discriminate].
  - apply Hs; vm_compute; first [reflexivity | discriminate].
Defined.

(* ------------------------------------------------------------------ *)
(** ** Circuit breaker *)

Module BreakerFacts.
Import Resilience.

(** [airflow_circuit_breaker] right after its third failure at 9 s. *)
Definition tripped_breaker : CircuitBreaker :=
  {| failure_threshold := 3; recovery_timeout := 30; failure_count := 3;
     last_failure_time := Some 9000000%Z; state := OPEN |}.

Definition env_after_trip : Env :=
  {| clock := 10000000; breaker := tripped_breaker; invocations := 0;
     breaker_checks := 0 |}.

(** Sleeps of [retry_async] when [random.random()] returns 0. *)
Definition low_jitter_sleep (attempt : nat) : Z :=
  match calculate_delay (Z.of_nat attempt) EXTERNAL_SERVICE_RETRY 0 with
  | inr (Float64.Fin q) => Qfloor (q * 1000000)
  | _ => 0
  end.

Example low_jitter_sleep_values :
  (low_jitter_sleep 1, low_jitter_sleep 2) = (1000000%Z, 2000000%Z).
Proof. reflexivity. Qed.

Lemma should_not_reset (cb : CircuitBreaker) (t now : Z) :
  last_failure_time cb = Some t ->
  (now - t <= recovery_timeout cb * 1000000)%Z ->
  _should_attempt_reset cb now = false.
Proof.
  intros Ht Hle. unfold _should_attempt_reset. rewrite Ht.
  apply Z.ltb_ge. exact Hle.
Qed.

Lemma guarded_request_open (request : nat -> Outcome) (env : Env) (t : Z) :
  state (breaker env) = OPEN ->
  last_failure_time (breaker env) = Some t ->
  (clock env - t <= recovery_timeout (breaker env) * 1000000)%Z ->
  guarded_request request env
  = ({| clock := clock env; breaker := breaker env;
        invocations := invocations env;
        breaker_checks := S (breaker_checks env) |}, Some CircuitOpen).
Proof.
  intros Hst Ht Hle. unfold guarded_request, breaker_call.
  rewrite Hst, (should_not_reset _ _ _ Ht Hle). reflexivity.
Qed.

End BreakerFacts.

(** Claim C4 does not hold: the retry decorator is outside the breaker in
    [_make_request], so the circuit-open error is caught by the retry
    policy and the breaker is consulted again after each backoff sleep:
    three times before the error reaches the caller. *)
Lemma open_breaker_error_is_retried :
  let '(env', err) :=
    Resilience._make_request BreakerFacts.low_jitter_sleep
      (fun _ => Resilience.Ok) BreakerFacts.env_after_trip in
  err = Some Resilience.CircuitOpen /\ Resilience.invocations env' = 0 /\
  Resilience.breaker_checks env' = 3.
Proof. vm_compute. repeat split. Qed.

(** Claim C4 (as the code behaves): when the breaker is OPEN and its
    recovery window does not elapse during the retry sequence, the HTTP
    request is never run and the breaker is left as it was, but the
    circuit-open error is retried by the outer retry policy: the breaker
    is consulted [max_attempts] = 3 times, with the two backoff sleeps in
    between, and then the circuit-open error propagates to the caller. *)
Theorem open_breaker_short_circuit_retried
    (sleep : nat -> Z) (request : nat -> Resilience.Outcome)
    (env : Resilience.Env) (t : Z) :
  Resilience.state (Resilience.breaker env) = Resilience.OPEN ->
  Resilience.last_failure_time (Resilience.breaker env) = Some t ->
  (0 <= sleep 1%nat)%Z -> (0 <= sleep 2%nat)%Z ->
  (Resilience.clock env + sleep 1%nat + sleep 2%nat - t
   <= Resilience.recovery_timeout (Resilience.breaker env) * 1000000)%Z ->
  Resilience._make_request sleep request env
  = ({| Resilience.clock := Resilience.clock env + sleep 1%nat + sleep 2%nat;
        Resilience.breaker := Resilience.breaker env;
        Resilience.invocations := Resilience.invocations env;
        Resilience.breaker_checks := S (S (S (Resilience.breaker_checks env)))
     |}%Z, Some Resilience.CircuitOpen).
Proof.
  intros Hst Ht H1 H2 Hle.
  unfold Resilience._make_request, Resilience.retry_async.
  cbn -[Resilience.guarded_request].
  rewrite (BreakerFacts.guarded_request_open _ _ t Hst Ht) by lia.
  cbn -[Resilience.guarded_request].
  rewrite (BreakerFacts.guarded_request_open _ _ t) by (cbn; first [exact Hst | exact Ht | lia]).
  cbn -[Resilience.guarded_request].
  rewrite (BreakerFacts.guarded_request_open _ _ t) by (cbn; first [exact Hst | exact Ht | lia]).
  cbn. reflexivity.
Qed.

Lemma open_breaker_short_circuit_retried_witness :
  Resilience._make_request BreakerFacts.low_jitter_sleep
    (fun _ => Resilience.Ok) BreakerFacts.env_after_trip
  = ({| Resilience.clock := 13000000; Resilience.breaker :=
          BreakerFacts.tripped_breaker;
        Resilience.invocations := 0; Resilience.breaker_checks := 3 |}%Z,
     Some Resilience.CircuitOpen).
Proof.
  apply (open_breaker_short_circuit_retried BreakerFacts.low_jitter_sleep
           (fun _ => Resilience.Ok) BreakerFacts.env_after_trip 9000000);
    vm_compute; try reflexivity; discriminate.
Defined.

(** Claim C8: with [failure_threshold = 3], three consecutive failures
    from a fresh breaker trip it to OPEN (two leave it CLOSED); until
    [recovery_timeout] has elapsed since the third failure a call fails
    fast without running the wrapped function; a call after that passes
    the reset check (the breaker goes HALF_OPEN), runs the wrapped function
    once, and on success resets the breaker to CLOSED with a zero failure
    count (on failure it re-opens with a fresh failure time). *)
Theorem breaker_trip_fail_fast_half_open_reset (T c1 c2 c3 d1 d2 d3 : Z) :
  Resilience.state
    (fst (Resilience.breaker_run (Resilience.new_breaker 3 T)
            [(c1, Resilience.Fail, d1); (c2, Resilience.Fail, d2)]))
  = Resilience.CLOSED /\
  let '(cb3, rs) :=
    Resilience.breaker_run (Resilience.new_breaker 3 T)
      [(c1, Resilience.Fail, d1); (c2, Resilience.Fail, d2);
       (c3, Resilience.Fail, d3)] in
  rs = [Resilience.Invoked Resilience.Fail; Resilience.Invoked Resilience.Fail;
        Resilience.Invoked Resilience.Fail] /\
  Resilience.state cb3 = Resilience.OPEN /\
  Resilience.failure_count cb3 = 3%Z /\
  Resilience.last_failure_time cb3 = Some d3 /\
  (forall (c d : Z) (o : Resilience.Outcome), (c - d3 <= T * 1000000)%Z ->
     Resilience.breaker_call cb3 c o d = (cb3, Resilience.CircuitOpenError)) /\
  (forall c d : Z, (T * 1000000 < c - d3)%Z ->
     Resilience._should_attempt_reset cb3 c = true /\
     let '(cb4, r) := Resilience.breaker_call cb3 c Resilience.Ok d in
     r = Resilience.Invoked Resilience.Ok /\
     Resilience.state cb4 = Resilience.CLOSED /\
     Resilience.failure_count cb4 = 0%Z) /\
  (forall c d : Z, (T * 1000000 < c - d3)%Z ->
     let '(cb4, r) := Resilience.breaker_call cb3 c Resilience.Fail d in
     r = Resilience.Invoked Resilience.Fail /\
     Resilience.state cb4 = Resilience.OPEN /\
     Resilience.last_failure_time cb4 = Some d).
Proof.
  split; [reflexivity |]. cbn.
  split; [reflexivity |]. split; [reflexivity |].
  split; [reflexivity |]. split; [reflexivity |].
  assert (Hreset : forall c, Resilience._should_attempt_reset
            {| Resilience.failure_threshold := 3; Resilience.recovery_timeout := T;
               Resilience.failure_count := 3; Resilience.last_failure_time := Some d3;
               Resilience.state := Resilience.OPEN |} c
            = (T * 1000000 <? c - d3)%Z) by reflexivity.
  split; [| split].
  - intros c d o Hle. unfold Resilience.breaker_call. cbn -[Resilience._should_attempt_reset].
    rewrite Hreset. apply Z.ltb_ge in Hle. rewrite Hle. reflexivity.
  - intros c d Hlt. rewrite Hreset. apply Z.ltb_lt in Hlt.
    split; [exact Hlt |].
    unfold Resilience.breaker_call. cbn -[Resilience._should_attempt_reset].
    rewrite Hreset, Hlt. repeat split.
  - intros c d Hlt. apply Z.ltb_lt in Hlt.
    unfold Resilience.breaker_call. cbn -[Resilience._should_attempt_reset].
    rewrite Hreset, Hlt. repeat split.
Qed.

Lemma breaker_trip_fail_fast_half_open_reset_witness :
  Resilience.breaker_call BreakerFacts.tripped_breaker 20000000%Z
    Resilience.Ok 20000000%Z
  = (BreakerFacts.tripped_breaker, Resilience.CircuitOpenError) /\
  Resilience.state
    (fst (Resilience.breaker_call BreakerFacts.tripped_breaker 40000000%Z
            Resilience.Ok 40000000%Z)) = Resilience.CLOSED.
Proof.
  destruct (breaker_trip_fail_fast_half_open_reset 30 1000000 5000000 9000000
              1000000 5000000 9000000) as [_ H].
  cbn in H.
  destruct H as (_ & _ & _ & _ & Hfast & Hok & _).
  split.
  - apply Hfast. lia.
  - destruct (Hok 40000000%Z 40000000%Z) as [_ Hc]; [lia |].
    destruct (Resilience.breaker_call _ 40000000%Z Resilience.Ok 40000000%Z)
      as [cb4 r] eqn:E.
    exact (proj1 (proj2 Hc)).
Defined.

(* ------------------------------------------------------------------ *)
(** ** Chain controller *)

Module ChainFacts.
Import Chain.

Lemma trigger_calls_app (l1 l2 : list ChainAction) :
  trigger_calls (l1 ++ l2) = (trigger_calls l1 ++ trigger_calls l2)%list.
Proof.
  induction l1 as [| a l1 IH]; [reflexivity |].
  destruct a; simpl; rewrite ?IH; reflexivity.
Qed.

(** A non-terminal observation performs at most a status write. *)
Lemma monitor_loop_step (fuel : nat) (chain : list string) (idx : nat)
    (cur : WorkflowStatus) (ps : params) (w t : bool)
    (o : option DagRunResponse) (obs : list (option DagRunResponse)) :
  non_terminal_obs o = true ->
  exists cur' acts,
    monitor_loop (S fuel) chain idx cur ps w t (o :: obs)
    = (acts ++ monitor_loop fuel chain idx cur' ps w t obs)%list /\
    trigger_calls acts = [].
Proof.
  intros Hn. destruct o as [resp |]; [| exists cur, []; split; reflexivity].
  simpl in *. destruct (resp_state resp) as [st |];
    [| exists cur, []; split; reflexivity].
  apply negb_true_iff, orb_false_iff in Hn as [Hs Hf].
  rewrite Hs, Hf.
  destruct (String.eqb st "running" || String.eqb st "queued").
  - set (cs := if String.eqb st "running" then RUNNING else QUEUED).
    destruct (decide (cur = cs)).
    + exists cur, []. split; reflexivity.
    + exists cs, [SetRunStatus cs]. split; reflexivity.
  - exists cur, []. split; reflexivity.
Qed.

Lemma monitor_loop_prefix (chain : list string) (idx : nat) (ps : params)
    (w t : bool) (o : option DagRunResponse) (rest : list (option DagRunResponse)) :
  forall (pre : list (option DagRunResponse)) (fuel : nat) (cur : WorkflowStatus),
  forallb non_terminal_obs pre = true -> length pre < fuel ->
  exists cur' acts k,
    monitor_loop fuel chain idx cur ps w t (pre ++ o :: rest)
    = (acts ++ monitor_loop (S k) chain idx cur' ps w t (o :: rest))%list /\
    trigger_calls acts = [].
Proof.
  intros pre. induction pre as [| x pre IH]; intros fuel cur Hall Hlen.
  - destruct fuel as [| k]; [simpl in Hlen; lia |].
    exists cur, [], k. split; reflexivity.
  - simpl in Hall. apply andb_true_iff in Hall as [Hx Hall].
    destruct fuel as [| fuel]; [simpl in Hlen; lia |].
    destruct (monitor_loop_step fuel chain idx cur ps w t x (pre ++ o :: rest) Hx)
      as (cur1 & acts1 & E1 & T1).
    destruct (IH fuel cur1 Hall ltac:(simpl in Hlen; lia))
      as (cur2 & acts2 & k & E2 & T2).
    exists cur2, (acts1 ++ acts2)%list, k. simpl app. rewrite E1, E2.
    split; [apply app_assoc |].
    rewrite trigger_calls_app, T1, T2. reflexivity.
Qed.

Lemma dict_lookup_set_eq (d : params) (k : string) (v : PValue) :
  dict_lookup (dict_set d k v) k = Some v.
Proof.
  induction d as [| [k' v'] d IH]; simpl.
  - rewrite String.eqb_refl. reflexivity.
  - destruct (String.eqb_spec k k') as [-> | Hne]; simpl.
    + rewrite String.eqb_refl. reflexivity.
    + apply String.eqb_neq in Hne. rewrite Hne. exact IH.
Qed.

Lemma dict_lookup_set_ne (d : params) (k k' : string) (v : PValue) :
  k <> k' -> dict_lookup (dict_set d k v) k' = dict_lookup d k'.
Proof.
  intros Hne. induction d as [| [k0 v0] d IH]; simpl.
  - apply String.eqb_neq in Hne. rewrite String.eqb_sym, Hne. reflexivity.
  - destruct (String.eqb_spec k k0) as [-> | Hne0]; simpl.
    + apply String.eqb_neq in Hne. rewrite String.eqb_sym in Hne.
      rewrite Hne. reflexivity.
    + destruct (String.eqb k' k0); [reflexivity | exact IH].
Qed.

Definition resp_with (st : string) : DagRunResponse := mkResp (Some st) None None.

End ChainFacts.

(** Claim C7: for a chain of three stages [a; b; c], the monitor of stage
    [a] (index 0) that observes SUCCESS after any number of non-terminal
    polls within its check budget makes exactly one trigger call, for [b],
    whose parameters carry [dag_chain_index = 1]; the monitor of stage [b]
    (index 1) that observes FAILED makes no trigger call and sets the
    parent task FAILED.  (The workflow row for [b] is found or created.) *)
Theorem chain_success_triggers_next_failure_halts
    (a b c : string) (ps : params) (cur : WorkflowStatus) (w t : bool)
    (pre rest : list (option DagRunResponse)) :
  forallb Chain.non_terminal_obs pre = true ->
  length pre < Chain.total_checks ->
  (exists ps',
     Chain.trigger_calls
       (Chain.monitor_chain [a; b; c] 0 cur ps true t
          (pre ++ Some (ChainFacts.resp_with "success") :: rest))
     = [(b, ps')] /\
     Chain.dict_lookup ps' "dag_chain_index" = Some (PNat 1)) /\
  Chain.trigger_calls
    (Chain.monitor_chain [a; b; c] 1 cur ps w t
       (pre ++ Some (ChainFacts.resp_with "failed") :: rest)) = [] /\
  In (Chain.SetTaskStatus T_FAILED)
    (Chain.monitor_chain [a; b; c] 1 cur ps w t
       (pre ++ Some (ChainFacts.resp_with "failed") :: rest)).
Proof.
  intros Hall Hlen. unfold Chain.monitor_chain.
  destruct (ChainFacts.monitor_loop_prefix [a; b; c] 0 ps true t
              (Some (ChainFacts.resp_with "success")) rest pre
              Chain.total_checks cur Hall Hlen) as (cur1 & acts1 & k1 & E1 & T1).
  destruct (ChainFacts.monitor_loop_prefix [a; b; c] 1 ps w t
              (Some (ChainFacts.resp_with "failed")) rest pre
              Chain.total_checks cur Hall Hlen) as (cur2 & acts2 & k2 & E2 & T2).
  split; [| split].
  - rewrite E1, ChainFacts.trigger_calls_app, T1. simpl.
    eexists. split; [destruct t; reflexivity |].
    rewrite ChainFacts.dict_lookup_set_ne by discriminate.
    rewrite ChainFacts.dict_lookup_set_ne by discriminate.
    apply ChainFacts.dict_lookup_set_eq.
  - rewrite E2, ChainFacts.trigger_calls_app, T2. reflexivity.
  - rewrite E2. apply in_or_app. right. simpl. tauto.
Qed.

Lemma chain_success_triggers_next_failure_halts_witness :
  (exists ps',
     Chain.trigger_calls
       (Chain._monitor_dag_completion_async 0 QUEUED [] true true
          [None; Some (ChainFacts.resp_with "running");
           Some (ChainFacts.resp_with "success")])
     = [("ml_training_pipeline", ps')] /\
     Chain.dict_lookup ps' "dag_chain_index" = Some (PNat 1)) /\
  Chain.trigger_calls
    (Chain._monitor_dag_completion_async 1 QUEUED [] true true
       [None; Some (ChainFacts.resp_with "running");
        Some (ChainFacts.resp_with "failed")]) = [].
Proof.
  destruct (chain_success_triggers_next_failure_halts
              "data_processing_pipeline" "ml_training_pipeline"
              "simple_workflow_example" [] QUEUED true true
              [None; Some (ChainFacts.resp_with "running")] [])
    as (H1 & H2 & _).
  - reflexivity.
  - vm_compute. lia.
  - split; [exact H1 | exact H2].
Defined.

(* ================================================================== *)
(** * Further properties of the code *)

(* ------------------------------------------------------------------ *)
(** ** Backoff delays and the retry loop *)

Module RetryFacts.
Import Resilience Float64 RetryLoop.

Lemma retry_from_decides {A E : Type} (config : RetryConfig)
    (retryable : E -> bool) (func : nat -> Result A E) (rnd : nat -> Z) :
  forall (j attempt : nat) (last : option E) (ds : list float),
  1 <= attempt -> attempt + j <= max_attempts config ->
  (forall i, attempt <= i < attempt + j ->
     exists e, func i = Throw e /\ retryable e = true) ->
  map (@inr FloatError float) ds
  = map (fun i => calculate_delay (Z.of_nat i) config (rnd i)) (seq attempt j) ->
  match func (attempt + j) with
  | Return _ => True
  | Throw e => retryable e = false \/ attempt + j = max_attempts config
  end ->
  retry_from config retryable func rnd (max_attempts config + 1 - attempt)
    attempt last
  = (match func (attempt + j) with
     | Return a => Returned a | Throw e => Reraised e end,
     S j, ds).
Proof.
  induction j as [| j IH]; intros attempt last ds H1 Hle Hprev Hds Hlast.
  - destruct ds; [| discriminate].
    rewrite Nat.add_0_r in Hlast |- *.
    replace (max_attempts config + 1 - attempt)
      with (S (max_attempts config - attempt)) by lia.
    cbn [retry_from]. destruct (func attempt) as [a | e]; [reflexivity |].
    destruct Hlast as [Hr | Heq].
    + rewrite Hr. reflexivity.
    + destruct (retryable e); [| reflexivity].
      rewrite Heq, Nat.eqb_refl. reflexivity.
  - destruct ds as [| d ds]; [discriminate |].
    cbn [map seq] in Hds. injection Hds as Hd Hds.
    replace (max_attempts config + 1 - attempt)
      with (S (max_attempts config + 1 - S attempt)) by lia.
    destruct (Hprev attempt ltac:(lia)) as (e & He & Hr).
    cbn [retry_from]. rewrite He, Hr.
    replace (Nat.eqb attempt (max_attempts config)) with false
      by (symmetry; apply Nat.eqb_neq; lia).
    rewrite <- Hd.
    rewrite (IH (S attempt) (Some e) ds) by
      (try lia; first [ intros i Hi; apply Hprev; lia
                      | exact Hds
                      | replace (S attempt + j) with (attempt + S j) by lia;
                        exact Hlast ]).
    replace (S attempt + j) with (attempt + S j) by lia. reflexivity.
Qed.

Lemma retry_from_delay_raises {A E : Type} (config : RetryConfig)
    (retryable : E -> bool) (func : nat -> Result A E) (rnd : nat -> Z) :
  forall (j attempt : nat) (last : option E) (err : FloatError),
  1 <= attempt -> attempt + j < max_attempts config ->
  (forall i, attempt <= i <= attempt + j ->
     exists e, func i = Throw e /\ retryable e = true) ->
  (forall i, attempt <= i < attempt + j ->
     exists d, calculate_delay (Z.of_nat i) config (rnd i) = inr d) ->
  calculate_delay (Z.of_nat (attempt + j)) config (rnd (attempt + j)) = inl err ->
  exists ds,
    retry_from config retryable func rnd (max_attempts config + 1 - attempt)
      attempt last = (DelayRaised err, S j, ds) /\ length ds = j.
Proof.
  induction j as [| j IH]; intros attempt last err H1 Hlt Hthrow Hdel Herr.
  - rewrite Nat.add_0_r in Herr.
    replace (max_attempts config + 1 - attempt)
      with (S (max_attempts config - attempt)) by lia.
    destruct (Hthrow attempt ltac:(lia)) as (e & He & Hr).
    exists []. cbn [retry_from]. rewrite He, Hr.
    replace (Nat.eqb attempt (max_attempts config)) with false
      by (symmetry; apply Nat.eqb_neq; lia).
    rewrite Herr. split; reflexivity.
  - replace (max_attempts config + 1 - attempt)
      with (S (max_attempts config + 1 - S attempt)) by lia.
    destruct (Hthrow attempt ltac:(lia)) as (e & He & Hr).
    destruct (Hdel attempt ltac:(lia)) as (d & Hd).
    destruct (IH (S attempt) (Some e) err) as (ds & Hrun & Hlen).
    + lia.
    + lia.
    + intros i Hi. apply Hthrow. lia.
    + intros i Hi. apply Hdel. lia.
    + replace (S attempt + j) with (attempt + S j) by lia. exact Herr.
    + exists (d :: ds). cbn [retry_from]. rewrite He, Hr.
      replace (Nat.eqb attempt (max_attempts config)) with false
        by (symmetry; apply Nat.eqb_neq; lia).
      rewrite Hd, Hrun. split; [reflexivity | simpl; lia].
Qed.

End RetryFacts.

(** The loop of [retry_async]: if attempts [1 .. k-1] raise retryable
    exceptions, the delays [calculate_delay 1 .. calculate_delay (k-1)]
    are computed without raising, and attempt [k] (at most
    [max_attempts]) returns, raises a non-retryable exception, or is the
    last attempt, then the function is called exactly [k] times, the loop
    ends with that attempt's value or exception, and the delays slept are
    those values, in order.  If instead attempts [1 .. j], with
    [j < max_attempts], all raise retryable exceptions, the delays of the
    attempts before [j] are computed and [calculate_delay j] raises (an
    [OverflowError] or a [ZeroDivisionError] of the float power), then the
    function is called [j] times, [j - 1] delays are slept and the loop
    ends with the exception of [calculate_delay].  With
    [max_attempts = 0] the function is never called and the loop ends in
    [raise None]. *)
Theorem retry_loop_first_deciding_attempt :
  (forall (A E : Type) (config : Resilience.RetryConfig)
     (retryable : E -> bool) (func : nat -> RetryLoop.Result A E)
     (rnd : nat -> Z) (k : nat) (ds : list Float64.float),
   1 <= k <= Resilience.max_attempts config ->
   (forall i, 1 <= i < k ->
      exists e, func i = RetryLoop.Throw e /\ retryable e = true) ->
   map (@inr Float64.FloatError Float64.float) ds
   = map (fun i => Resilience.calculate_delay (Z.of_nat i) config (rnd i))
         (seq 1 (k - 1)) ->
   match func k with
   | RetryLoop.Return _ => True
   | RetryLoop.Throw e =>
       retryable e = false \/ k = Resilience.max_attempts config
   end ->
   RetryLoop.retry_run config retryable func rnd
   = (match func k with
      | RetryLoop.Return a => RetryLoop.Returned a
      | RetryLoop.Throw e => RetryLoop.Reraised e end,
      k, ds)) /\
  (forall (A E : Type) (config : Resilience.RetryConfig)
     (retryable : E -> bool) (func : nat -> RetryLoop.Result A E)
     (rnd : nat -> Z) (j : nat) (err : Float64.FloatError),
   1 <= j < Resilience.max_attempts config ->
   (forall i, 1 <= i <= j ->
      exists e, func i = RetryLoop.Throw e /\ retryable e = true) ->
   (forall i, 1 <= i < j ->
      exists d, Resilience.calculate_delay (Z.of_nat i) config (rnd i) = inr d) ->
   Resilience.calculate_delay (Z.of_nat j) config (rnd j) = inl err ->
   exists ds,
     RetryLoop.retry_run config retryable func rnd
     = (RetryLoop.DelayRaised err, j, ds) /\ length ds = j - 1) /\
  (forall (A E : Type) (config : Resilience.RetryConfig)
     (retryable : E -> bool) (func : nat -> RetryLoop.Result A E)
     (rnd : nat -> Z),
   Resilience.max_attempts config = 0 ->
   RetryLoop.retry_run config retryable func rnd = (RetryLoop.RaiseNone, 0, [])).
Proof.
  split; [| split].
  - intros A E config retryable func rnd k ds Hk Hprev Hds Hlast.
    unfold RetryLoop.retry_run.
    pose proof (RetryFacts.retry_from_decides config retryable func rnd
                  (k - 1) 1 None ds ltac:(lia) ltac:(lia)) as H.
    replace (1 + (k - 1)) with k in H by lia.
    replace (Resilience.max_attempts config + 1 - 1)
      with (Resilience.max_attempts config) in H by lia.
    replace (S (k - 1)) with k in H by lia.
    apply H; [intros i Hi; apply Hprev; lia | exact Hds | exact Hlast].
  - intros A E config retryable func rnd j err Hj Hthrow Hdel Herr.
    unfold RetryLoop.retry_run.
    destruct (RetryFacts.retry_from_delay_raises config retryable func rnd
                (j - 1) 1 None err) as (ds & Hrun & Hlen).
    + lia.
    + lia.
    + intros i Hi. apply Hthrow. lia.
    + intros i Hi. apply Hdel. lia.
    + replace (1 + (j - 1)) with j by lia. exact Herr.
    + exists ds.
      replace (Resilience.max_attempts config + 1 - 1)
        with (Resilience.max_attempts config) in Hrun by lia.
      replace (S (j - 1)) with j in Hrun by lia.
      split; [exact Hrun | lia].
  - intros A E config retryable func rnd H0.
    unfold RetryLoop.retry_run. rewrite H0. reflexivity.
Qed.

Lemma retry_loop_first_deciding_attempt_witness :
  RetryLoop.retry_run Resilience.EXTERNAL_SERVICE_RETRY (fun _ : nat => true)
    (fun i => if Nat.ltb i 3 then RetryLoop.Throw i else RetryLoop.Return 7)
    (fun _ => 0%Z)
  = (RetryLoop.Returned 7, 3, [Float64.Fin 1; Float64.Fin 2]) /\
  (exists ds,
     RetryLoop.retry_run
       {| Resilience.max_attempts := 5; Resilience.delay := 1;
          Resilience.backoff_factor := inject_Z (2 ^ 600);
          Resilience.max_delay := 30; Resilience.jitter := false |}
       (fun _ : nat => true) (fun i : nat => @RetryLoop.Throw nat nat i)
       (fun _ => 0%Z)
     = (RetryLoop.DelayRaised Float64.OverflowError, 3, ds) /\
     length ds = 3 - 1) /\
  RetryLoop.retry_run
    {| Resilience.max_attempts := 0; Resilience.delay := 1;
       Resilience.backoff_factor := 2; Resilience.max_delay := 60;
       Resilience.jitter := true |} (fun _ : nat => true)
    (fun i : nat => @RetryLoop.Throw nat nat i) (fun _ => 0%Z)
  = (RetryLoop.RaiseNone, 0, []).
Proof.
  destruct retry_loop_first_deciding_attempt as (H1 & H2 & H3).
  split; [| split].
  - apply (H1 nat nat Resilience.EXTERNAL_SERVICE_RETRY (fun _ => true)
             (fun i => if Nat.ltb i 3 then RetryLoop.Throw i else RetryLoop.Return 7)
             (fun _ => 0%Z) 3 [Float64.Fin 1; Float64.Fin 2]).
    + simpl. lia.
    + intros i Hi. exists i. split; [| reflexivity].
      replace (Nat.ltb i 3) with true by (symmetry; apply Nat.ltb_lt; lia).
      reflexivity.
    + vm_compute. reflexivity.
    + exact I.
  - apply (H2 nat nat
             {| Resilience.max_attempts := 5; Resilience.delay := 1;
                Resilience.backoff_factor := inject_Z (2 ^ 600);
                Resilience.max_delay := 30; Resilience.jitter := false |}
             (fun _ => true) (fun i : nat => @RetryLoop.Throw nat nat i)
             (fun _ => 0%Z) 3 Float64.OverflowError).
    + simpl. lia.
    + intros i Hi. exists i. split; reflexivity.
    + intros i Hi.
      destruct i as [| [| [| i]]]; try lia; eexists; vm_compute; reflexivity.
    + vm_compute. reflexivity.
  - apply H3. reflexivity.
Defined.

(* ------------------------------------------------------------------ *)
(** ** The decorated request and the breaker *)

Module BreakerInv.
Import Resilience.

(** The states a breaker with threshold [th] can be in between two calls. *)
Definition breaker_inv (th : Z) (cb : CircuitBreaker) : Prop :=
  failure_threshold cb = th /\ (1 <= th)%Z /\
  ((state cb = CLOSED /\ (0 <= failure_count cb < th)%Z) \/
   (state cb = OPEN /\ (th <= failure_count cb)%Z /\
    last_failure_time cb <> None)).

Lemma breaker_call_inv (th : Z) (cb : CircuitBreaker) (t : Z) (o : Outcome)
    (t' : Z) :
  breaker_inv th cb -> breaker_inv th (fst (breaker_call cb t o t')).
Proof.
  destruct cb as [th' rt n lf st].
  unfold breaker_inv, breaker_call; simpl.
  intros [-> [Hth [[-> Hn] | (-> & Hn & Hlf)]]].
  - destruct o; simpl; (split; [reflexivity |]); (split; [lia |]).
    + left. split; [reflexivity | lia].
    + destruct (Z.leb_spec th (n + 1)).
      * right. split; [reflexivity |]. split; [lia | discriminate].
      * left. split; [reflexivity | lia].
  - destruct (_should_attempt_reset _ t).
    + destruct o; simpl; (split; [reflexivity |]); (split; [lia |]).
      * left. split; [reflexivity | lia].
      * destruct (Z.leb_spec th (n + 1)); [| lia].
        right. split; [reflexivity |]. split; [lia | discriminate].
    + simpl. split; [reflexivity |]. split; [lia |]. right. tauto.
Qed.

Lemma breaker_run_inv (th : Z) (calls : list (Z * Outcome * Z)) :
  forall cb, breaker_inv th cb -> breaker_inv th (fst (breaker_run cb calls)).
Proof.
  induction calls as [| [[t o] t'] calls IH]; intros cb H; [exact H |].
  simpl. pose proof (breaker_call_inv th cb t o t' H) as H1.
  destruct (breaker_call cb t o t') as [cb1 r]. simpl in H1.
  specialize (IH cb1 H1).
  destruct (breaker_run cb1 calls) as [cb2 rs]. exact IH.
Qed.

End BreakerInv.

(** [CircuitBreaker]: starting from a fresh breaker with a threshold of at
    least one, after any sequence of calls the breaker is either CLOSED with
    fewer failures than the threshold, or OPEN with at least the threshold
    and a recorded failure time; it is never left HALF_OPEN between calls. *)
Theorem breaker_state_invariant (threshold timeout : Z)
    (calls : list (Z * Resilience.Outcome * Z)) :
  (1 <= threshold)%Z ->
  let cb := fst (Resilience.breaker_run
                   (Resilience.new_breaker threshold timeout) calls) in
  (Resilience.state cb = Resilience.CLOSED /\
   (0 <= Resilience.failure_count cb < threshold)%Z) \/
  (Resilience.state cb = Resilience.OPEN /\
   (threshold <= Resilience.failure_count cb)%Z /\
   Resilience.last_failure_time cb <> None).
Proof.
  intros Hth cb.
  assert (H : BreakerInv.breaker_inv threshold cb).
  { apply BreakerInv.breaker_run_inv. unfold BreakerInv.breaker_inv; simpl.
    split; [reflexivity |]. split; [lia |]. left. split; [reflexivity | lia]. }
  destruct H as (_ & _ & H). exact H.
Qed.

Lemma breaker_state_invariant_witness :
  let cb := fst (Resilience.breaker_run (Resilience.new_breaker 3 30)
                   [(0, Resilience.Fail, 1); (2, Resilience.Fail, 3);
                    (4, Resilience.Fail, 5); (6, Resilience.Ok, 7)]%Z) in
  (Resilience.state cb = Resilience.CLOSED /\
   (0 <= Resilience.failure_count cb < 3)%Z) \/
  (Resilience.state cb = Resilience.OPEN /\
   (3 <= Resilience.failure_count cb)%Z /\
   Resilience.last_failure_time cb <> None).
Proof. apply (breaker_state_invariant 3 30). lia. Defined.

(** [AirflowClient._make_request] from a CLOSED breaker with no failures
    and threshold 3: when every run of the HTTP request fails, the request
    is run three times (once per attempt of the retry policy), the call
    fails with the request's error after the two backoff sleeps, and the
    breaker is left OPEN with three failures, its failure time being the
    clock at the third attempt. *)
Theorem make_request_all_fail_opens_breaker (sleep : nat -> Z)
    (env : Resilience.Env) :
  Resilience.state (Resilience.breaker env) = Resilience.CLOSED ->
  Resilience.failure_count (Resilience.breaker env) = 0%Z ->
  Resilience.failure_threshold (Resilience.breaker env) = 3%Z ->
  Resilience._make_request sleep (fun _ => Resilience.Fail) env
  = ({| Resilience.clock := Resilience.clock env + sleep 1%nat + sleep 2%nat;
        Resilience.breaker :=
          {| Resilience.failure_threshold := 3;
             Resilience.recovery_timeout :=
               Resilience.recovery_timeout (Resilience.breaker env);
             Resilience.failure_count := 3;
             Resilience.last_failure_time :=
               Some (Resilience.clock env + sleep 1%nat + sleep 2%nat);
             Resilience.state := Resilience.OPEN |};
        Resilience.invocations := S (S (S (Resilience.invocations env)));
        Resilience.breaker_checks := S (S (S (Resilience.breaker_checks env)))
     |}%Z, Some Resilience.RequestFailed).
Proof.
  destruct env as [c [th rt n lf st] inv chk]; simpl.
  intros -> -> ->. reflexivity.
Qed.

Lemma make_request_all_fail_opens_breaker_witness :
  Resilience._make_request BreakerFacts.low_jitter_sleep
    (fun _ => Resilience.Fail)
    {| Resilience.clock := 0; Resilience.breaker :=
         Resilience.airflow_circuit_breaker;
       Resilience.invocations := 0; Resilience.breaker_checks := 0 |}%Z
  = ({| Resilience.clock := 3000000;
        Resilience.breaker :=
          {| Resilience.failure_threshold := 3;
             Resilience.recovery_timeout := 30;
             Resilience.failure_count := 3;
             Resilience.last_failure_time := Some 3000000;
             Resilience.state := Resilience.OPEN |};
        Resilience.invocations := 3; Resilience.breaker_checks := 3 |}%Z,
     Some Resilience.RequestFailed).
Proof.
  apply (make_request_all_fail_opens_breaker BreakerFacts.low_jitter_sleep
           {| Resilience.clock := 0; Resilience.breaker :=
                Resilience.airflow_circuit_breaker;
              Resilience.invocations := 0; Resilience.breaker_checks := 0 |}%Z);
    reflexivity.
Defined.

(** [AirflowClient._make_request] from a CLOSED breaker with no failures
    and threshold 3: when the first [k] runs of the request fail and the
    next one succeeds, with [k < 3], the call succeeds after [k + 1] runs
    of the request, and the breaker is left CLOSED with its failure count
    reset to zero. *)
Theorem make_request_success_resets_breaker (sleep : nat -> Z)
    (request : nat -> Resilience.Outcome) (env : Resilience.Env) (k : nat) :
  Resilience.state (Resilience.breaker env) = Resilience.CLOSED ->
  Resilience.failure_count (Resilience.breaker env) = 0%Z ->
  Resilience.failure_threshold (Resilience.breaker env) = 3%Z ->
  k < 3 ->
  (forall i, i < k -> request (Resilience.invocations env + i) = Resilience.Fail) ->
  request (Resilience.invocations env + k) = Resilience.Ok ->
  let '(env', err) := Resilience._make_request sleep request env in
  err = None /\
  Resilience.invocations env' = Resilience.invocations env + S k /\
  Resilience.state (Resilience.breaker env') = Resilience.CLOSED /\
  Resilience.failure_count (Resilience.breaker env') = 0%Z.
Proof.
  destruct env as [c [th rt n lf st] inv chk]; simpl.
  intros -> -> -> Hk Hfail Hok.
  unfold Resilience._make_request, Resilience.retry_async.
  destruct k as [| [| [| k]]]; [| | | lia].
  - rewrite Nat.add_0_r in Hok. cbn [Resilience.retry_loop Resilience.max_attempts
      Resilience.EXTERNAL_SERVICE_RETRY].
    unfold Resilience.guarded_request at 1.
    unfold Resilience.breaker_call, Resilience._on_failure, Resilience._on_success.
    simpl. rewrite Hok. simpl.
    repeat split; lia.
  - pose proof (Hfail 0 ltac:(lia)) as F0. rewrite Nat.add_0_r in F0.
    replace (inv + 1) with (S inv) in Hok by lia.
    cbn [Resilience.retry_loop Resilience.max_attempts
      Resilience.EXTERNAL_SERVICE_RETRY].
    unfold Resilience.guarded_request at 1.
    unfold Resilience.breaker_call, Resilience._on_failure, Resilience._on_success.
    simpl. rewrite F0. simpl.
    unfold Resilience.guarded_request at 1.
    unfold Resilience.breaker_call, Resilience._on_failure, Resilience._on_success.
    simpl. rewrite Hok. simpl.
    repeat split; lia.
  - pose proof (Hfail 0 ltac:(lia)) as F0. rewrite Nat.add_0_r in F0.
    pose proof (Hfail 1 ltac:(lia)) as F1.
    replace (inv + 1) with (S inv) in F1 by lia.
    replace (inv + 2) with (S (S inv)) in Hok by lia.
    cbn [Resilience.retry_loop Resilience.max_attempts
      Resilience.EXTERNAL_SERVICE_RETRY].
    unfold Resilience.guarded_request at 1.
    unfold Resilience.breaker_call, Resilience._on_failure, Resilience._on_success.
    simpl. rewrite F0. simpl.
    unfold Resilience.guarded_request at 1.
    unfold Resilience.breaker_call, Resilience._on_failure, Resilience._on_success.
    simpl. rewrite F1. simpl.
    unfold Resilience.guarded_request at 1.
    unfold Resilience.breaker_call, Resilience._on_failure, Resilience._on_success.
    simpl. rewrite Hok. simpl.
    repeat split; lia.
Qed.

Lemma make_request_success_resets_breaker_witness :
  let '(env', err) :=
    Resilience._make_request BreakerFacts.low_jitter_sleep
      (fun i => if Nat.ltb i 2 then Resilience.Fail else Resilience.Ok)
      {| Resilience.clock := 0; Resilience.breaker :=
           Resilience.airflow_circuit_breaker;
         Resilience.invocations := 0; Resilience.breaker_checks := 0 |}%Z in
  err = None /\ Resilience.invocations env' = 0 + 3 /\
  Resilience.state (Resilience.breaker env') = Resilience.CLOSED /\
  Resilience.failure_count (Resilience.breaker env') = 0%Z.
Proof.
  apply (make_request_success_resets_breaker BreakerFacts.low_jitter_sleep
           (fun i => if Nat.ltb i 2 then Resilience.Fail else Resilience.Ok)
           {| Resilience.clock := 0; Resilience.breaker :=
                Resilience.airflow_circuit_breaker;
              Resilience.invocations := 0; Resilience.breaker_checks := 0 |}%Z 2);
    try reflexivity; try lia.
  intros i Hi. simpl. replace (Nat.ltb i 2) with true by (symmetry; apply Nat.ltb_lt; lia).
  reflexivity.
Defined.

(* ------------------------------------------------------------------ *)
(** ** The per-run watch and the active-run monitor *)

(** [_monitor_workflow_run_impl]: a response in state ["upstream_failed"]
    or ["skipped"] is a terminal status, yet it does not end the watch: the
    run is updated, nothing is published, and the loop polls again. *)
Theorem watch_continues_after_upstream_failed_or_skipped
    (resp : DagRunResponse) (wid rid : string) (now : Z)
    (rest : list (option DagRunResponse * Z)) (db : Orchestration.Store)
    (fuel : nat) (evs : list Orchestration.Event) :
  resp_state resp = Some "upstream_failed" \/ resp_state resp = Some "skipped" ->
  is_terminal (_map_airflow_status (state_or_unknown resp)) = true /\
  Orchestration.watch_loop (S fuel) wid rid ((Some resp, now) :: rest) db evs
  = Orchestration.watch_loop fuel wid rid rest
      (Orchestration._update_workflow_run_status rid resp now db) evs.
Proof.
  unfold state_or_unknown.
  intros [H | H]; rewrite H; simpl; unfold Orchestration.watch_poll;
    unfold state_or_unknown; rewrite H; simpl; rewrite app_nil_r;
    split; reflexivity.
Qed.

Lemma watch_continues_after_upstream_failed_or_skipped_witness :
  is_terminal (_map_airflow_status "skipped") = true /\
  Orchestration.watch_loop 2 "1" "run_1"
    [(Some (mkResp (Some "skipped") None None), 5%Z)] ∅ []
  = Orchestration.watch_loop 1 "1" "run_1" []
      (Orchestration._update_workflow_run_status "run_1"
         (mkResp (Some "skipped") None None) 5 ∅) [].
Proof.
  apply (watch_continues_after_upstream_failed_or_skipped
           (mkResp (Some "skipped") None None) "1" "run_1" 5 [] ∅ 1 []).
  right. reflexivity.
Defined.

Module ActiveFacts.
Import Orchestration ActiveRuns.

Lemma NoDup_fst_filter {A B : Type} (f : A * B -> bool) (l : list (A * B)) :
  NoDup (map fst l) -> NoDup (map fst (List.filter f l)).
Proof.
  induction l as [| [a b] l IH]; simpl; intros H; [constructor |].
  inversion H as [| ? ? Hn Hl]; subst.
  destruct (f (a, b)); simpl; [| auto].
  constructor; [| auto].
  intros Hin. apply Hn. apply list_elem_of_In in Hin. apply list_elem_of_In.
  apply in_map_iff in Hin as ([a' b'] & <- & Hin).
  apply filter_In in Hin as [Hin _]. apply in_map_iff. exists (a', b'). auto.
Qed.

End ActiveFacts.

(** [_monitor_active_workflows_impl]: the watches scheduled are exactly one
    [(workflow id, run id)] per stored run whose status is not terminal
    (QUEUED, RUNNING, UP_FOR_RETRY, UP_FOR_RESCHEDULE or SCHEDULED), and no
    run id is scheduled twice. *)
Theorem monitor_active_schedules_non_terminal_runs (db : Orchestration.Store) :
  (forall wid rid,
     In (wid, rid) (ActiveRuns._monitor_active_workflows_impl db) <->
     exists r, db !! rid = Some r /\ run_workflow_id r = wid /\
               is_terminal (status r) = false) /\
  NoDup (map snd (ActiveRuns._monitor_active_workflows_impl db)).
Proof.
  unfold ActiveRuns._monitor_active_workflows_impl, ActiveRuns.list_by_status.
  split.
  - intros wid rid. rewrite in_map_iff. split.
    + intros ([k r] & Heq & Hin). simpl in Heq. injection Heq as <- <-.
      apply filter_In in Hin as [Hin Hf]. simpl in Hf.
      exists r. split; [| split; [reflexivity |]].
      2: { destruct (status r); simpl in Hf |- *; congruence. }
      apply elem_of_map_to_list. apply list_elem_of_In. exact Hin.
    + intros (r & Hl & <- & Ht). exists (rid, r). split; [reflexivity |].
      apply filter_In. split.
      * apply list_elem_of_In. apply elem_of_map_to_list. exact Hl.
      * simpl. destruct (status r); simpl in Ht |- *; congruence.
  - rewrite map_map. simpl.
    apply ActiveFacts.NoDup_fst_filter. apply NoDup_fst_map_to_list.
Qed.

(* ------------------------------------------------------------------ *)
(** ** Trigger with the insert of the run *)

Module BlankFacts.
Import Workflows.

Lemma drop_space_keeps_non_space (l : list Ascii.ascii) (c : Ascii.ascii)
    (m : list Ascii.ascii) :
  py_isspace c = false -> drop_space (l ++ c :: m) <> [].
Proof.
  intros Hc. induction l as [| x l IH]; simpl.
  - rewrite Hc. discriminate.
  - destruct (py_isspace x); [exact IH | discriminate].
Qed.

Lemma string_of_list_ascii_length (l : list Ascii.ascii) :
  String.length (string_of_list_ascii l) = length l.
Proof. induction l as [| a l IH]; simpl; [reflexivity | rewrite IH; reflexivity]. Qed.

(** A string starting with a non-space character is not blank. *)
Lemma blank_non_space_head (c : Ascii.ascii) (s : string) :
  py_isspace c = false -> blank (String c s) = false.
Proof.
  intros Hc. unfold blank, py_strip. simpl list_ascii_of_string.
  cbn [drop_space]. rewrite Hc. cbn [rev].
  destruct (drop_space (rev (list_ascii_of_string s) ++ [c])) as [| x l] eqn:E.
  - exfalso. exact (drop_space_keeps_non_space _ c [] Hc E).
  - rewrite string_of_list_ascii_length. simpl. rewrite length_app. simpl.
    apply Nat.ltb_ge. lia.
Qed.

End BlankFacts.

(** [trigger_workflow] with the Airflow call and the insert of the run:
    two trigger commands served in the same clock second, whose Airflow
    calls both succeed and echo the run id they were sent, both reach
    Airflow; the first run is stored, the second raises
    [ExternalServiceError] when its run (with the same primary key) is
    inserted, publishes nothing, and leaves the run table as the first
    call left it. *)
Theorem trigger_same_second_second_run_rejected (hp : bool)
    (db1 db2 : RunId.Repos) (runs : Orchestration.Store)
    (c1 c2 : RunId.TriggerWorkflowCommand) (t1 t2 : RunId.DateTime)
    (iso1 iso2 : string) (p1 p2 : RunId.TriggerPayload)
    (airflow : RunId.TriggerPayload -> option TriggerUseCase.TriggerResponse) :
  RunId.same_second t1 t2 ->
  RunId.trigger_workflow db1 c1 t1 iso1 = Some p1 ->
  RunId.trigger_workflow db2 c2 t2 iso2 = Some p2 ->
  (forall p, exists d, airflow p = Some (TriggerUseCase.mkTriggerResponse
                                           (RunId.pl_dag_run_id p) (Some d))) ->
  runs !! RunId.pl_dag_run_id p1 = None ->
  let '(runs1, sent1, _, res1) :=
    TriggerUseCase.trigger_workflow_run hp db1 runs c1 t1 iso1 airflow in
  let '(runs2, sent2, evs2, res2) :=
    TriggerUseCase.trigger_workflow_run hp db2 runs1 c2 t2 iso2 airflow in
  sent1 = [p1] /\
  res1 = inr (new_run (RunId.pl_dag_run_id p1) (RunId.cmd_workflow_id c1)
                (RunId.cmd_parameters c1)) /\
  runs1 !! RunId.pl_dag_run_id p1
  = Some (new_run (RunId.pl_dag_run_id p1) (RunId.cmd_workflow_id c1)
            (RunId.cmd_parameters c1)) /\
  sent2 = [p2] /\ evs2 = [] /\
  res2 = inl Orchestration.ExternalServiceError /\ runs2 = runs1.
Proof.
  intros Hs H1 H2 Hair Hfree.
  pose proof (trigger_workflow_run_id _ _ _ _ _ H1) as R1.
  pose proof (trigger_workflow_run_id _ _ _ _ _ H2) as R2.
  rewrite <- (strftime_run_id_same_second _ _ Hs), <- R1 in R2.
  assert (Hb : Workflows.blank (RunId.pl_dag_run_id p1) = false)
    by (rewrite R1; apply BlankFacts.blank_non_space_head; reflexivity).
  unfold TriggerUseCase.trigger_workflow_run. rewrite H1.
  destruct (Hair p1) as [d1 ->]. cbn [TriggerUseCase.tr_dag_run_id
    TriggerUseCase.tr_execution_date].
  rewrite Hb, Hfree. rewrite H2.
  destruct (Hair p2) as [d2 ->]. cbn [TriggerUseCase.tr_dag_run_id
    TriggerUseCase.tr_execution_date].
  rewrite R2, Hb, lookup_insert_eq.
  repeat split; reflexivity.
Qed.

Lemma trigger_same_second_second_run_rejected_witness :
  let airflow := fun p => Some (TriggerUseCase.mkTriggerResponse
                                  (RunId.pl_dag_run_id p) (Some 0%Z)) in
  let '(runs1, sent1, _, res1) :=
    TriggerUseCase.trigger_workflow_run true sample_repos ∅ sample_cmd1
      (RunId.mkDateTime 2024 3 7 9 5 1 77) "a" airflow in
  let '(runs2, sent2, evs2, res2) :=
    TriggerUseCase.trigger_workflow_run true sample_repos runs1 sample_cmd2
      (RunId.mkDateTime 2024 3 7 9 5 1 999) "b" airflow in
  sent1 = [RunId.mkPayload "data_processing_pipeline" "api_trigger_20240307_090501"
             [("task_id", PNat 7); ("dataset_id", PNone);
              ("parameters", PDict [("epochs", PNat 3)]);
              ("triggered_by", PNat 1); ("note", PNone)]] /\
  res1 = inr (new_run "api_trigger_20240307_090501" "1" [("epochs", PNat 3)]) /\
  runs1 !! "api_trigger_20240307_090501"
  = Some (new_run "api_trigger_20240307_090501" "1" [("epochs", PNat 3)]) /\
  sent2 = [RunId.mkPayload "ml_training_pipeline" "api_trigger_20240307_090501"
             [("task_id", PNone); ("dataset_id", PNat 4);
              ("parameters", PDict []);
              ("triggered_by", PNat 2); ("note", PStr "nightly")]] /\
  evs2 = [] /\
  res2 = inl Orchestration.ExternalServiceError /\ runs2 = runs1.
Proof.
  apply (trigger_same_second_second_run_rejected true sample_repos sample_repos
           ∅ sample_cmd1 sample_cmd2 (RunId.mkDateTime 2024 3 7 9 5 1 77)
           (RunId.mkDateTime 2024 3 7 9 5 1 999) "a" "b"
           (RunId.mkPayload "data_processing_pipeline" "api_trigger_20240307_090501"
              [("task_id", PNat 7); ("dataset_id", PNone);
               ("parameters", PDict [("epochs", PNat 3)]);
               ("triggered_by", PNat 1); ("note", PNone)])
           (RunId.mkPayload "ml_training_pipeline" "api_trigger_20240307_090501"
              [("task_id", PNone); ("dataset_id", PNat 4);
               ("parameters", PDict []);
               ("triggered_by", PNat 2); ("note", PStr "nightly")])).
  - unfold RunId.same_second; simpl; repeat split.
  - reflexivity.
  - reflexivity.
  - intros p. exists 0%Z. reflexivity.
  - reflexivity.
Defined.

(* ------------------------------------------------------------------ *)
(** ** Workflow rows *)

Module WorkflowFacts.
Import Workflows.

Lemma create_workflow_ok (t t' : WorkflowTable) (name : string)
    (desc : option string) (dag : string) (cb : option Z) (w : WorkflowRow) :
  create_workflow t name desc dag cb = (t', inr w) ->
  rows t' = (rows t ++ [w])%list /\ wf_dag_id w = dag.
Proof.
  unfold create_workflow, create.
  destruct (match cb with
            | Some n => if (n =? 0)%Z then inr None
                        else if (n <=? 0)%Z then inl ValidationError
                        else inr (Some n)
            | None => inr None end) as [e | c];
    [intros H; discriminate H |].
  destruct (blank name); [intros H; discriminate H |].
  destruct (blank dag); [intros H; discriminate H |].
  intros H. injection H as <- <-. simpl. split; reflexivity.
Qed.

Lemma create_workflow_err (t t' : WorkflowTable) (name : string)
    (desc : option string) (dag : string) (cb : option Z) (e : WfError) :
  create_workflow t name desc dag cb = (t', inl e) -> t' = t.
Proof.
  unfold create_workflow, create.
  destruct (match cb with
            | Some n => if (n =? 0)%Z then inr None
                        else if (n <=? 0)%Z then inl ValidationError
                        else inr (Some n)
            | None => inr None end) as [e' | c];
    [intros H; injection H as <-; reflexivity |].
  destruct (blank name); [intros H; injection H as <-; reflexivity |].
  destruct (blank dag); [intros H; injection H as <-; reflexivity |].
  intros H. discriminate H.
Qed.

Lemma filter_dag_app (l : list WorkflowRow) (w : WorkflowRow) (dag : string) :
  wf_dag_id w = dag ->
  List.filter (fun r => String.eqb (wf_dag_id r) dag) (l ++ [w])
  = (List.filter (fun r => String.eqb (wf_dag_id r) dag) l ++ [w])%list.
Proof.
  intros Hw. rewrite List.filter_app. simpl. rewrite Hw, String.eqb_refl.
  reflexivity.
Qed.

End WorkflowFacts.

(** [get_or_create_workflow]: a call that returns a workflow leaves a table
    on which a second call for the same DAG id, whatever its name,
    description and creator, returns that same workflow and changes
    nothing; a call that fails leaves the table unchanged; a call adds at
    most one row. *)
Theorem get_or_create_workflow_idempotent (t : Workflows.WorkflowTable)
    (name name' : string) (dag : string) (desc desc' : option string)
    (cb cb' : option Z) :
  let '(t1, r1) := Workflows.get_or_create_workflow t name dag desc cb in
  (match r1 with
   | inr w => Workflows.get_or_create_workflow t1 name' dag desc' cb'
              = (t1, inr w)
   | inl _ => t1 = t
   end) /\
  length (Workflows.rows t1) <= S (length (Workflows.rows t)).
Proof.
  unfold Workflows.get_or_create_workflow.
  destruct (Workflows.get_by_dag_id t dag) as [e | [w |]] eqn:G.
  - split; [reflexivity | lia].
  - split; [rewrite G; reflexivity | lia].
  - destruct (Workflows.create_workflow t name desc dag cb) as [t1 [e | w]] eqn:C.
    + apply WorkflowFacts.create_workflow_err in C. subst. split; [reflexivity | lia].
    + destruct (WorkflowFacts.create_workflow_ok _ _ _ _ _ _ _ C) as [Hr Hd].
      split.
      * unfold Workflows.get_by_dag_id in G |- *. rewrite Hr.
        rewrite WorkflowFacts.filter_dag_app by exact Hd.
        destruct (List.filter _ (Workflows.rows t)) as [| x l];
          [reflexivity | destruct l; discriminate G].
      * rewrite Hr, length_app. simpl. lia.
Qed.

(** [create_workflow] does not look for an existing workflow with the same
    DAG id: after two successful creations with the same DAG id (which
    carries no unique constraint), [get_by_dag_id] raises
    [MultipleResultsFound] for it, so every later [get_or_create_workflow]
    for that DAG id fails, leaving the table unchanged. *)
Theorem duplicate_dag_id_breaks_get_or_create (t t1 t2 : Workflows.WorkflowTable)
    (n1 n2 n : string) (d1 d2 d : option string) (dag : string)
    (cb1 cb2 cb : option Z) (w1 w2 : Workflows.WorkflowRow) :
  Workflows.create_workflow t n1 d1 dag cb1 = (t1, inr w1) ->
  Workflows.create_workflow t1 n2 d2 dag cb2 = (t2, inr w2) ->
  Workflows.get_by_dag_id t2 dag = inl Workflows.MultipleResultsFound /\
  Workflows.get_or_create_workflow t2 n dag d cb
  = (t2, inl Workflows.MultipleResultsFound).
Proof.
  intros C1 C2.
  destruct (WorkflowFacts.create_workflow_ok _ _ _ _ _ _ _ C1) as [R1 D1].
  destruct (WorkflowFacts.create_workflow_ok _ _ _ _ _ _ _ C2) as [R2 D2].
  assert (G : Workflows.get_by_dag_id t2 dag = inl Workflows.MultipleResultsFound).
  { unfold Workflows.get_by_dag_id. rewrite R2, R1.
    rewrite WorkflowFacts.filter_dag_app by exact D2.
    rewrite WorkflowFacts.filter_dag_app by exact D1.
    destruct (List.filter _ (Workflows.rows t)) as [| x [| y l]]; reflexivity. }
  split; [exact G |]. unfold Workflows.get_or_create_workflow. rewrite G.
  reflexivity.
Qed.

Lemma duplicate_dag_id_breaks_get_or_create_witness :
  Workflows.get_by_dag_id
    (Workflows.mkWorkflowTable
       [Workflows.mkWorkflowRow 1 "etl" None "data_processing_pipeline" None;
        Workflows.mkWorkflowRow 2 "etl copy" None "data_processing_pipeline"
          (Some 5%Z)] 3) "data_processing_pipeline"
  = inl Workflows.MultipleResultsFound /\
  Workflows.get_or_create_workflow
    (Workflows.mkWorkflowTable
       [Workflows.mkWorkflowRow 1 "etl" None "data_processing_pipeline" None;
        Workflows.mkWorkflowRow 2 "etl copy" None "data_processing_pipeline"
          (Some 5%Z)] 3) "any" "data_processing_pipeline" None None
  = (Workflows.mkWorkflowTable
       [Workflows.mkWorkflowRow 1 "etl" None "data_processing_pipeline" None;
        Workflows.mkWorkflowRow 2 "etl copy" None "data_processing_pipeline"
          (Some 5%Z)] 3, inl Workflows.MultipleResultsFound).
Proof.
  apply (duplicate_dag_id_breaks_get_or_create
           (Workflows.mkWorkflowTable [] 1)
           (Workflows.mkWorkflowTable
              [Workflows.mkWorkflowRow 1 "etl" None "data_processing_pipeline" None] 2)
           _ "etl" "etl copy" "any" None None None "data_processing_pipeline"
           (Some 0%Z) (Some 5%Z) None
           (Workflows.mkWorkflowRow 1 "etl" None "data_processing_pipeline" None)
           (Workflows.mkWorkflowRow 2 "etl copy" None "data_processing_pipeline"
              (Some 5%Z))); reflexivity.
Defined.

(** [create_workflow]'s validation: a negative creator id raises
    [ValidationError] before anything else is checked; otherwise a name or
    DAG id that is empty or only white space raises [ValueError]; a
    creator id of 0 is falsy and treated as no creator.  A call that raises
    leaves the table unchanged. *)
Theorem create_workflow_validation (t : Workflows.WorkflowTable)
    (name : string) (desc : option string) (dag : string) :
  (forall n : Z, (n < 0)%Z ->
     Workflows.create_workflow t name desc dag (Some n)
     = (t, inl Workflows.ValidationError)) /\
  (forall cb : option Z, (forall n, cb = Some n -> (0 <= n)%Z) ->
     Workflows.blank name = true \/ Workflows.blank dag = true ->
     Workflows.create_workflow t name desc dag cb = (t, inl Workflows.ValueError)) /\
  Workflows.create_workflow t name desc dag (Some 0%Z)
  = Workflows.create_workflow t name desc dag None.
Proof.
  unfold Workflows.create_workflow. split; [| split].
  - intros n Hn. replace (n =? 0)%Z with false by (symmetry; apply Z.eqb_neq; lia).
    replace (n <=? 0)%Z with true by (symmetry; apply Z.leb_le; lia).
    reflexivity.
  - intros cb Hcb Hb.
    assert (Hc : exists c, match cb with
                 | Some n => if (n =? 0)%Z then inr None
                             else if (n <=? 0)%Z then inl Workflows.ValidationError
                             else inr (Some n)
                 | None => inr None end = inr c).
    { destruct cb as [n |]; [| eauto].
      specialize (Hcb n eq_refl).
      destruct (Z.eqb_spec n 0); [eauto |].
      replace (n <=? 0)%Z with false by (symmetry; apply Z.leb_gt; lia). eauto. }
    destruct Hc as [c ->].
    destruct Hb as [-> | ->]; [reflexivity |].
    destruct (Workflows.blank name); reflexivity.
  - reflexivity.
Qed.

Lemma create_workflow_validation_witness :
  Workflows.create_workflow (Workflows.mkWorkflowTable [] 1) "   " None
    "data_processing_pipeline" (Some (-1)%Z)
  = (Workflows.mkWorkflowTable [] 1, inl Workflows.ValidationError) /\
  Workflows.create_workflow (Workflows.mkWorkflowTable [] 1) "   " None
    "data_processing_pipeline" (Some 4%Z)
  = (Workflows.mkWorkflowTable [] 1, inl Workflows.ValueError).
Proof.
  destruct (create_workflow_validation (Workflows.mkWorkflowTable [] 1) "   " None
              "data_processing_pipeline") as (H1 & H2 & _).
  split.
  - apply H1. lia.
  - apply H2.
    + intros n Hn. injection Hn as <-. lia.
    + left. reflexivity.
Defined.

(* ------------------------------------------------------------------ *)
(** ** The chain monitor *)

Module ChainMoreFacts.
Import Chain ChainRun.

Definition run_status_only (acts : list ChainAction) : Prop :=
  Forall (fun a => exists s, a = SetRunStatus s /\ (s = RUNNING \/ s = QUEUED)) acts.

Lemma task_updates_app (l1 l2 : list ChainAction) :
  task_updates (l1 ++ l2) = (task_updates l1 ++ task_updates l2)%list.
Proof.
  induction l1 as [| a l1 IH]; [reflexivity |].
  destruct a; simpl; rewrite ?IH; reflexivity.
Qed.

Lemma run_status_only_app (l1 l2 : list ChainAction) :
  run_status_only l1 -> run_status_only l2 -> run_status_only (l1 ++ l2).
Proof. apply Forall_app_2. Qed.

Lemma run_status_only_calls (acts : list ChainAction) :
  run_status_only acts -> trigger_calls acts = [] /\ task_updates acts = [].
Proof.
  induction 1 as [| a acts (s & -> & _) _ [IH1 IH2]]; [split; reflexivity |].
  simpl. split; assumption.
Qed.

Lemma scheduled_next_app (acts l : list ChainAction) :
  run_status_only acts -> scheduled_next (acts ++ l) = scheduled_next l.
Proof.
  induction 1 as [| a acts (s & -> & _) _ IH]; [reflexivity |].
  simpl. exact IH.
Qed.

(** A non-terminal observation writes at most a RUNNING / QUEUED status. *)
Lemma monitor_loop_step_runs (fuel : nat) (chain : list string) (idx : nat)
    (cur : WorkflowStatus) (ps : params) (w t : bool)
    (o : option DagRunResponse) (obs : list (option DagRunResponse)) :
  non_terminal_obs o = true ->
  exists cur' acts,
    monitor_loop (S fuel) chain idx cur ps w t (o :: obs)
    = (acts ++ monitor_loop fuel chain idx cur' ps w t obs)%list /\
    run_status_only acts.
Proof.
  intros Hn. destruct o as [resp |]; [| exists cur, []; split; [reflexivity | constructor]].
  simpl in *. destruct (resp_state resp) as [st |];
    [| exists cur, []; split; [reflexivity | constructor]].
  apply negb_true_iff, orb_false_iff in Hn as [Hs Hf].
  rewrite Hs, Hf.
  destruct (String.eqb st "running" || String.eqb st "queued").
  - set (cs := if String.eqb st "running" then RUNNING else QUEUED).
    destruct (decide (cur = cs)).
    + exists cur, []. split; [reflexivity | constructor].
    + exists cs, [SetRunStatus cs]. split; [reflexivity |].
      constructor; [| constructor]. exists cs. split; [reflexivity |].
      unfold cs. destruct (String.eqb st "running"); tauto.
  - exists cur, []. split; [reflexivity | constructor].
Qed.

Lemma monitor_loop_prefix_runs (chain : list string) (idx : nat) (ps : params)
    (w t : bool) (o : option DagRunResponse)
    (rest : list (option DagRunResponse)) :
  forall (pre : list (option DagRunResponse)) (fuel : nat) (cur : WorkflowStatus),
  forallb non_terminal_obs pre = true -> length pre < fuel ->
  exists cur' acts k,
    monitor_loop fuel chain idx cur ps w t (pre ++ o :: rest)
    = (acts ++ monitor_loop (S k) chain idx cur' ps w t (o :: rest))%list /\
    run_status_only acts.
Proof.
  intros pre. induction pre as [| x pre IH]; intros fuel cur Hall Hlen.
  - destruct fuel as [| k]; [simpl in Hlen; lia |].
    exists cur, [], k. split; [reflexivity | constructor].
  - simpl in Hall. apply andb_true_iff in Hall as [Hx Hall].
    destruct fuel as [| fuel]; [simpl in Hlen; lia |].
    destruct (monitor_loop_step_runs fuel chain idx cur ps w t x
                (pre ++ o :: rest) Hx) as (cur1 & acts1 & E1 & T1).
    destruct (IH fuel cur1 Hall ltac:(simpl in Hlen; lia))
      as (cur2 & acts2 & k & E2 & T2).
    exists cur2, (acts1 ++ acts2)%list, k. simpl app. rewrite E1, E2.
    split; [apply app_assoc | apply run_status_only_app; assumption].
Qed.

Lemma monitor_loop_all_pending (chain : list string) (idx : nat) (ps : params)
    (w t : bool) :
  forall obs fuel cur, forallb non_terminal_obs obs = true ->
  run_status_only (monitor_loop fuel chain idx cur ps w t obs).
Proof.
  induction obs as [| o obs IH]; intros fuel cur Hall.
  - destruct fuel; constructor.
  - destruct fuel as [| fuel]; [constructor |].
    simpl in Hall. apply andb_true_iff in Hall as [Ho Hall].
    destruct (monitor_loop_step_runs fuel chain idx cur ps w t o obs Ho)
      as (cur' & acts & -> & Hacts).
    apply run_status_only_app; [exact Hacts | apply IH; exact Hall].
Qed.

End ChainMoreFacts.

Module ChainStageFacts.
Import Chain ChainRun ChainMoreFacts.

Lemma stage_success (chain : list string) (idx : nat) (cur : WorkflowStatus)
    (ps : params) (w t : bool) (pre rest : list (option DagRunResponse)) :
  forallb non_terminal_obs pre = true -> length pre < total_checks ->
  exists acts,
    monitor_chain chain idx cur ps w t
      (pre ++ Some (ChainFacts.resp_with "success") :: rest)
    = (acts ++ SetRunStatus SUCCESS ::
         (if Nat.ltb (S idx) (length chain)
          then _trigger_next_dag chain (S idx) ps w t
          else [SetTaskStatus COMPLETED]))%list /\
    run_status_only acts.
Proof.
  intros Hall Hlen. unfold monitor_chain.
  destruct (monitor_loop_prefix_runs chain idx ps w t
              (Some (ChainFacts.resp_with "success")) rest pre total_checks cur
              Hall Hlen) as (cur' & acts & k & -> & Hr).
  exists acts. split; [reflexivity | exact Hr].
Qed.

End ChainStageFacts.

(** [_monitor_dag_completion_async]: when no observation within the check
    budget is SUCCESS or FAILED (in particular when the budget runs out),
    the monitor only writes RUNNING / QUEUED statuses to the run: it
    triggers nothing, schedules no further monitor, and never changes the
    parent task's status, which stays as it was. *)
Theorem chain_monitor_pending_leaves_task (chain : list string) (idx : nat)
    (cur : WorkflowStatus) (ps : params) (w t : bool)
    (obs : list (option DagRunResponse)) :
  forallb Chain.non_terminal_obs obs = true ->
  let acts := Chain.monitor_chain chain idx cur ps w t obs in
  Chain.trigger_calls acts = [] /\ ChainRun.task_updates acts = [] /\
  ChainRun.scheduled_next acts = None /\
  Forall (fun a => exists s, a = Chain.SetRunStatus s /\
                             (s = RUNNING \/ s = QUEUED)) acts.
Proof.
  intros Hall. cbv zeta.
  pose proof (ChainMoreFacts.monitor_loop_all_pending chain idx ps w t obs
                Chain.total_checks cur Hall) as H.
  unfold Chain.monitor_chain.
  revert H. generalize (Chain.monitor_loop Chain.total_checks chain idx cur ps w t obs).
  intros acts H.
  destruct (ChainMoreFacts.run_status_only_calls acts H) as [H1 H2].
  split; [exact H1 |]. split; [exact H2 |]. split; [| exact H].
  rewrite <- (app_nil_r acts), ChainMoreFacts.scheduled_next_app by exact H.
  reflexivity.
Qed.

Lemma chain_monitor_pending_leaves_task_witness :
  let acts := Chain._monitor_dag_completion_async 0 QUEUED [] true true
                [None; Some (ChainFacts.resp_with "running");
                 Some (ChainFacts.resp_with "up_for_retry")] in
  Chain.trigger_calls acts = [] /\ ChainRun.task_updates acts = [] /\
  ChainRun.scheduled_next acts = None /\
  Forall (fun a => exists s, a = Chain.SetRunStatus s /\
                             (s = RUNNING \/ s = QUEUED)) acts.
Proof.
  apply (chain_monitor_pending_leaves_task Chain.DAG_EXECUTION_CHAIN 0 QUEUED []
           true true).
  reflexivity.
Defined.

(** [dag_chain_tasks.py], monitors run one after the other: in a chain
    [a; b; c] whose three monitors each see SUCCESS after non-terminal
    polls within their budget (any further scheduled stage is never
    reached), the trigger calls are exactly [b] with [dag_chain_index = 1]
    and [next_dag = c], then [c] with [dag_chain_index = 2] and no next
    DAG; the parent task's status is changed once, to COMPLETED, by the
    last monitor. *)
Theorem chain_run_three_stages_success (a b c : string) (ps : params)
    (cur : WorkflowStatus)
    (pre1 pre2 pre3 rest1 rest2 rest3 : list (option DagRunResponse))
    (more : list (list (option DagRunResponse))) :
  forallb Chain.non_terminal_obs pre1 = true ->
  forallb Chain.non_terminal_obs pre2 = true ->
  forallb Chain.non_terminal_obs pre3 = true ->
  length pre1 < Chain.total_checks -> length pre2 < Chain.total_checks ->
  length pre3 < Chain.total_checks ->
  let acts :=
    ChainRun.run_chain [a; b; c] 0 cur ps true true
      ((pre1 ++ Some (ChainFacts.resp_with "success") :: rest1)%list
       :: (pre2 ++ Some (ChainFacts.resp_with "success") :: rest2)%list
       :: (pre3 ++ Some (ChainFacts.resp_with "success") :: rest3)%list :: more) in
  (exists ps1 ps2,
     Chain.trigger_calls acts = [(b, ps1); (c, ps2)] /\
     Chain.dict_lookup ps1 "dag_chain_index" = Some (PNat 1) /\
     Chain.dict_lookup ps1 "next_dag" = Some (PStr c) /\
     Chain.dict_lookup ps2 "dag_chain_index" = Some (PNat 2) /\
     Chain.dict_lookup ps2 "next_dag" = Some PNone) /\
  ChainRun.task_updates acts = [COMPLETED].
Proof.
  intros H1 H2 H3 L1 L2 L3 acts. unfold acts. clear acts.
  cbn [ChainRun.run_chain].
  destruct (ChainStageFacts.stage_success [a; b; c] 0 cur ps true true pre1 rest1
              H1 L1) as (acts1 & -> & R1).
  set (ps1 := Chain.dict_set (Chain.dict_set (Chain.dict_set ps "dag_chain_index"
                (PNat 1)) "dag_chain_total" (PNat 3)) "next_dag" (PStr c)).
  change (Nat.ltb 1 (length [a; b; c])) with true. cbv iota.
  change (Chain._trigger_next_dag [a; b; c] 1 ps true true)
    with [Chain.TriggerCall b ps1; Chain.ScheduleMonitor 1].
  rewrite ChainMoreFacts.scheduled_next_app by exact R1.
  change (ChainRun.scheduled_next [Chain.SetRunStatus SUCCESS;
            Chain.TriggerCall b ps1; Chain.ScheduleMonitor 1]) with (Some (1, ps1)).
  cbv iota beta.
  destruct (ChainStageFacts.stage_success [a; b; c] 1 QUEUED ps1 true true pre2 rest2
              H2 L2) as (acts2 & -> & R2).
  set (ps2 := Chain.dict_set (Chain.dict_set (Chain.dict_set ps1 "dag_chain_index"
                (PNat 2)) "dag_chain_total" (PNat 3)) "next_dag" PNone).
  change (Nat.ltb 2 (length [a; b; c])) with true. cbv iota.
  change (Chain._trigger_next_dag [a; b; c] 2 ps1 true true)
    with [Chain.TriggerCall c ps2; Chain.ScheduleMonitor 2].
  rewrite ChainMoreFacts.scheduled_next_app by exact R2.
  change (ChainRun.scheduled_next [Chain.SetRunStatus SUCCESS;
            Chain.TriggerCall c ps2; Chain.ScheduleMonitor 2]) with (Some (2, ps2)).
  cbv iota beta.
  destruct (ChainStageFacts.stage_success [a; b; c] 2 QUEUED ps2 true true pre3 rest3
              H3 L3) as (acts3 & -> & R3).
  change (Nat.ltb 3 (length [a; b; c])) with false. cbv iota.
  rewrite ChainMoreFacts.scheduled_next_app by exact R3.
  change (ChainRun.scheduled_next [Chain.SetRunStatus SUCCESS;
            Chain.SetTaskStatus COMPLETED]) with (@None (nat * params)).
  cbv iota.
  destruct (ChainMoreFacts.run_status_only_calls _ R1) as [T1 U1].
  destruct (ChainMoreFacts.run_status_only_calls _ R2) as [T2 U2].
  destruct (ChainMoreFacts.run_status_only_calls _ R3) as [T3 U3].
  split.
  - exists ps1, ps2.
    rewrite !ChainFacts.trigger_calls_app, T1, T2, T3. split; [reflexivity |].
    unfold ps2, ps1.
    split; [| split; [| split]];
      rewrite ?ChainFacts.dict_lookup_set_ne by discriminate;
      apply ChainFacts.dict_lookup_set_eq.
  - rewrite !ChainMoreFacts.task_updates_app, U1, U2, U3. reflexivity.
Qed.

Lemma chain_run_three_stages_success_witness :
  let acts :=
    ChainRun.run_chain Chain.DAG_EXECUTION_CHAIN 0 QUEUED [] true true
      [[None; Some (ChainFacts.resp_with "running");
        Some (ChainFacts.resp_with "success")];
       [Some (ChainFacts.resp_with "success")];
       [Some (ChainFacts.resp_with "queued"); Some (ChainFacts.resp_with "success")]] in
  (exists ps1 ps2,
     Chain.trigger_calls acts
     = [("ml_training_pipeline", ps1); ("simple_workflow_example", ps2)] /\
     Chain.dict_lookup ps1 "dag_chain_index" = Some (PNat 1) /\
     Chain.dict_lookup ps1 "next_dag" = Some (PStr "simple_workflow_example") /\
     Chain.dict_lookup ps2 "dag_chain_index" = Some (PNat 2) /\
     Chain.dict_lookup ps2 "next_dag" = Some PNone) /\
  ChainRun.task_updates acts = [COMPLETED].
Proof.
  apply (chain_run_three_stages_success "data_processing_pipeline"
           "ml_training_pipeline" "simple_workflow_example" [] QUEUED
           [None; Some (ChainFacts.resp_with "running")] []
           [Some (ChainFacts.resp_with "queued")] [] [] [] []);
    first [reflexivity | vm_compute; lia].
Defined.

(* ------------------------------------------------------------------ *)
(** ** The chaining task of [workflow_tasks.py] *)

Module ChainTaskFacts.
Import ChainTask.

(** An iteration whose query raises or returns a state outside
    [success], [failed], [up_for_retry], [upstream_failed]. *)
Definition impl_pending (s : ImplStep) : bool :=
  match st_query s with
  | None => true
  | Some resp =>
      match resp_state resp with
      | None => true
      | Some st => negb (String.eqb st "success" || String.eqb st "failed" ||
                        String.eqb st "up_for_retry" ||
                        String.eqb st "upstream_failed")
      end
  end.

Lemma impl_loop_pending (fuel : nat) (chain : list string) (next : string)
    (ps : params) (s : ImplStep) (steps : list ImplStep) :
  impl_pending s = true ->
  impl_loop (S fuel) chain next ps (s :: steps) = impl_loop fuel chain next ps steps.
Proof.
  unfold impl_pending. intros H. simpl.
  destruct (st_query s) as [resp |];
    [| destruct (impl_loop fuel chain next ps steps); reflexivity].
  destruct (resp_state resp) as [st |];
    [| destruct (impl_loop fuel chain next ps steps); reflexivity].
  apply negb_true_iff in H. apply orb_false_iff in H as [H Hu].
  apply orb_false_iff in H as [H Hr]. apply orb_false_iff in H as [Hs Hf].
  rewrite Hs, Hf, Hr, Hu. simpl.
  destruct (impl_loop fuel chain next ps steps); reflexivity.
Qed.

Lemma impl_loop_prefix (chain : list string) (next : string) (ps : params)
    (s : ImplStep) (rest : list ImplStep) :
  forall pre fuel,
  forallb impl_pending pre = true -> length pre < fuel ->
  impl_loop fuel chain next ps (pre ++ s :: rest)
  = impl_loop (fuel - length pre) chain next ps (s :: rest).
Proof.
  induction pre as [| x pre IH]; intros fuel Hall Hlen.
  - simpl. rewrite Nat.sub_0_r. reflexivity.
  - simpl in Hall. apply andb_true_iff in Hall as [Hx Hall].
    destruct fuel as [| fuel]; [simpl in Hlen; lia |].
    simpl app. rewrite impl_loop_pending by exact Hx.
    rewrite IH by (try exact Hall; simpl in Hlen; lia). reflexivity.
Qed.

(** A successful poll whose calls all return. *)
Definition success_step (sd ed : option Z) : ImplStep :=
  mkStep (Some (mkResp (Some "success") sd ed)) true true true.

End ChainTaskFacts.

(** [_trigger_next_dag_impl]: when the DAG to trigger is the last of the
    chain or not in it, the poll that sees the current DAG succeed
    triggers it and sets the task COMPLETED in the same iteration, without
    waiting for the DAG it has just triggered; a poll that sees [failed],
    [up_for_retry] or [upstream_failed] sets the task FAILED and stops the
    chain, whatever the other calls of that iteration would do. *)
Theorem chain_task_last_dag_completes_on_trigger (chain : list string)
    (next : string) (ps : params) (pre rest : list ChainTask.ImplStep)
    (fuel : nat) (sd ed : option Z) :
  (forall i, ChainTask.chain_index chain next = Some i ->
     nth_error chain (S i) = None) ->
  forallb ChainTaskFacts.impl_pending pre = true -> length pre < fuel ->
  ChainTask.impl_loop fuel chain next ps
    (pre ++ ChainTaskFacts.success_step sd ed :: rest)%list
  = ([ChainTask.ITrigger next ps; ChainTask.ITaskStatus COMPLETED],
     ChainTask.Triggered) /\
  (forall st, In st ["failed"; "up_for_retry"; "upstream_failed"] ->
   forall w tr : bool,
     ChainTask.impl_loop fuel chain next ps
       (pre ++ ChainTask.mkStep (Some (mkResp (Some st) sd ed)) w tr true :: rest)%list
     = ([ChainTask.ITaskStatus T_FAILED], ChainTask.ChainStopped)).
Proof.
  intros Hlast Hall Hlen. split.
  - rewrite ChainTaskFacts.impl_loop_prefix by assumption.
    destruct (fuel - length pre) as [| k] eqn:E; [lia |].
    cbn -[nth_error ChainTask.chain_index].
    destruct (ChainTask.chain_index chain next) as [i |] eqn:Ci;
      [rewrite (Hlast i eq_refl) |]; reflexivity.
  - intros st Hst w tr.
    rewrite ChainTaskFacts.impl_loop_prefix by assumption.
    destruct (fuel - length pre) as [| k] eqn:E; [lia |].
    destruct Hst as [<- | [<- | [<- | []]]]; reflexivity.
Qed.

Lemma chain_task_last_dag_completes_on_trigger_witness :
  ChainTask._trigger_next_dag_impl "simple_workflow_example" [("lr", PNat 1)]
    [ChainTask.mkStep None true true true;
     ChainTaskFacts.success_step None None]
  = ([ChainTask.ITrigger "simple_workflow_example" [("lr", PNat 1)];
      ChainTask.ITaskStatus COMPLETED], ChainTask.Triggered) /\
  ChainTask._trigger_next_dag_impl "simple_workflow_example" [("lr", PNat 1)]
    [ChainTask.mkStep None true true true;
     ChainTask.mkStep (Some (mkResp (Some "up_for_retry") None None)) false true true]
  = ([ChainTask.ITaskStatus T_FAILED], ChainTask.ChainStopped).
Proof.
  destruct (chain_task_last_dag_completes_on_trigger Chain.DAG_EXECUTION_CHAIN
              "simple_workflow_example" [("lr", PNat 1)]
              [ChainTask.mkStep None true true true] [] ChainTask.impl_checks
              None None) as [H1 H2].
  - intros i Hi. vm_compute in Hi. injection Hi as <-. reflexivity.
  - reflexivity.
  - vm_compute. lia.
  - split; [exact H1 |]. apply (H2 "up_for_retry"). simpl. tauto.
Defined.

(** [_trigger_next_dag_impl]: every exception inside an iteration is caught
    and the loop polls again, so when the call that follows a successful
    trigger (scheduling the next monitor, or marking the task COMPLETED)
    raises, the next poll, still seeing the current DAG succeeded, triggers
    the next DAG a second time. *)
Theorem chain_task_retriggers_after_failed_followup (chain : list string)
    (next : string) (ps : params) (pre rest : list ChainTask.ImplStep)
    (fuel : nat) (sd ed sd' ed' : option Z) :
  forallb ChainTaskFacts.impl_pending pre = true -> S (length pre) < fuel ->
  ChainTask.impl_loop fuel chain next ps
    (pre ++ ChainTask.mkStep (Some (mkResp (Some "success") sd ed)) true true false
         :: ChainTaskFacts.success_step sd' ed' :: rest)%list
  = ([ChainTask.ITrigger next ps; ChainTask.ITrigger next ps;
      match match ChainTask.chain_index chain next with
            | Some i => nth_error chain (S i) | None => None end with
      | Some nn => ChainTask.IScheduleNext next nn ps
      | None => ChainTask.ITaskStatus COMPLETED
      end], ChainTask.Triggered).
Proof.
  intros Hall Hlen.
  rewrite ChainTaskFacts.impl_loop_prefix by (try assumption; lia).
  destruct (fuel - length pre) as [| [| k]] eqn:E; [lia | lia |].
  cbn -[nth_error ChainTask.chain_index].
  destruct (ChainTask.chain_index chain next) as [i |];
    [destruct (nth_error chain (S i)) |]; reflexivity.
Qed.

Lemma chain_task_retriggers_after_failed_followup_witness :
  ChainTask._trigger_next_dag_impl "ml_training_pipeline" []
    [ChainTask.mkStep (Some (mkResp (Some "success") None None)) true true false;
     ChainTaskFacts.success_step None None]
  = ([ChainTask.ITrigger "ml_training_pipeline" [];
      ChainTask.ITrigger "ml_training_pipeline" [];
      ChainTask.IScheduleNext "ml_training_pipeline" "simple_workflow_example" []],
     ChainTask.Triggered).
Proof.
  apply (chain_task_retriggers_after_failed_followup Chain.DAG_EXECUTION_CHAIN
           "ml_training_pipeline" [] [] [] ChainTask.impl_checks None None None None).
  - reflexivity.
  - vm_compute. lia.
Defined.

(** [execute_task] followed by the chaining tasks of [workflow_tasks.py]:
    the first chaining task, started with [dag_index = 1], triggers the
    second DAG and schedules the next task with the same parameters; that
    task triggers the third DAG with those parameters again
    ([dag_index = 1]) and marks the task COMPLETED at once, so the third
    DAG's run is never watched and any further stage is never reached. *)
Theorem execute_task_chain_reuses_parameters (request : params)
    (pre1 pre2 rest1 rest2 : list ChainTask.ImplStep)
    (more : list (list ChainTask.ImplStep)) (sd ed sd' ed' : option Z) :
  forallb ChainTaskFacts.impl_pending pre1 = true ->
  forallb ChainTaskFacts.impl_pending pre2 = true ->
  length pre1 < ChainTask.impl_checks -> length pre2 < ChainTask.impl_checks ->
  ChainTask.impl_chain (nth 1 Chain.DAG_EXECUTION_CHAIN "")
    (ChainTask.execute_params request 1)
    ((pre1 ++ ChainTaskFacts.success_step sd ed :: rest1)%list
     :: (pre2 ++ ChainTaskFacts.success_step sd' ed' :: rest2)%list :: more)
  = [ChainTask.ITrigger "ml_training_pipeline" (ChainTask.execute_params request 1);
     ChainTask.IScheduleNext "ml_training_pipeline" "simple_workflow_example"
       (ChainTask.execute_params request 1);
     ChainTask.ITrigger "simple_workflow_example" (ChainTask.execute_params request 1);
     ChainTask.ITaskStatus COMPLETED] /\
  Chain.dict_lookup (ChainTask.execute_params request 1) "dag_index"
  = Some (PNat 1).
Proof.
  intros H1 H2 L1 L2. split.
  - cbn [ChainTask.impl_chain nth Chain.DAG_EXECUTION_CHAIN].
    unfold ChainTask._trigger_next_dag_impl.
    rewrite ChainTaskFacts.impl_loop_prefix by assumption.
    destruct (ChainTask.impl_checks - length pre1) as [| k1] eqn:E1; [lia |].
    cbn -[ChainTask.impl_checks].
    rewrite ChainTaskFacts.impl_loop_prefix by assumption.
    destruct (ChainTask.impl_checks - length pre2) as [| k2] eqn:E2; [lia |].
    cbn -[ChainTask.impl_checks]. reflexivity.
  - unfold ChainTask.execute_params.
    rewrite ChainFacts.dict_lookup_set_ne by discriminate.
    apply ChainFacts.dict_lookup_set_eq.
Qed.

Lemma execute_task_chain_reuses_parameters_witness :
  ChainTask.impl_chain "ml_training_pipeline"
    (ChainTask.execute_params [("epochs", PNat 3)] 1)
    [[ChainTask.mkStep None true true true; ChainTaskFacts.success_step None None];
     [ChainTaskFacts.success_step None None]]
  = [ChainTask.ITrigger "ml_training_pipeline"
       (ChainTask.execute_params [("epochs", PNat 3)] 1);
     ChainTask.IScheduleNext "ml_training_pipeline" "simple_workflow_example"
       (ChainTask.execute_params [("epochs", PNat 3)] 1);
     ChainTask.ITrigger "simple_workflow_example"
       (ChainTask.execute_params [("epochs", PNat 3)] 1);
     ChainTask.ITaskStatus COMPLETED] /\
  Chain.dict_lookup (ChainTask.execute_params [("epochs", PNat 3)] 1) "dag_index"
  = Some (PNat 1).
Proof.
  apply (execute_task_chain_reuses_parameters [("epochs", PNat 3)]
           [ChainTask.mkStep None true true true] [] [] [] [] None None None None);
    first [reflexivity | vm_compute; lia].
Defined.

(* ------------------------------------------------------------------ *)
(** ** Run identifiers are one per second *)

Module RunIdFacts.
Import RunId.

(** A [datetime.now()] reading (years 1000 to 9999, where [%Y] has four
    digits). *)
Definition valid_datetime (dt : DateTime) : Prop :=
  (10 ^ 3 <= year dt < 10 ^ 4 /\ 1 <= month dt <= 12 /\ 1 <= day dt <= 31 /\
   hour dt < 24 /\ minute dt < 60 /\ second dt < 60)%nat.

Lemma str_length_app (s t : string) :
  String.length (s ++ t) = (String.length s + String.length t)%nat.
Proof. induction s as [| c s IH]; simpl; [reflexivity | rewrite IH; reflexivity]. Qed.

Lemma str_app_cancel (s1 s2 t1 t2 : string) :
  String.length s1 = String.length s2 -> s1 ++ t1 = s2 ++ t2 -> s1 = s2 /\ t1 = t2.
Proof.
  revert s2. induction s1 as [| c s1 IH]; intros s2 Hl H.
  - destruct s2; [split; [reflexivity | exact H] | discriminate Hl].
  - destruct s2 as [| c' s2]; [discriminate Hl |].
    simpl in H. injection H as -> H. injection Hl as Hl.
    destruct (IH s2 Hl H) as [-> ->]. split; reflexivity.
Qed.

Lemma pad_num_length (w n : nat) : String.length (pad_num w n) = w.
Proof.
  revert n. induction w as [| w IH]; intros n; [reflexivity |].
  simpl. rewrite str_length_app, IH. simpl. lia.
Qed.

Lemma digit_inj (a b : nat) : (a < 10)%nat -> (b < 10)%nat -> digit a = digit b -> a = b.
Proof.
  intros Ha Hb H. unfold digit in H.
  apply (f_equal Ascii.nat_of_ascii) in H.
  rewrite !Ascii.nat_ascii_embedding in H by lia. lia.
Qed.

Lemma pad_num_inj (w : nat) : forall a b,
  pad_num w a = pad_num w b -> Nat.modulo a (10 ^ w) = Nat.modulo b (10 ^ w).
Proof.
  induction w as [| w IH]; intros a b H.
  - change (10 ^ 0)%nat with 1%nat. rewrite !Nat.mod_1_r. reflexivity.
  - cbn [pad_num] in H.
    destruct (str_app_cancel _ _ _ _ (eq_trans (pad_num_length w _)
                (eq_sym (pad_num_length w _))) H) as [H1 H2].
    apply (f_equal (fun s => match s with
                             | String c _ => c | EmptyString => Ascii.zero end)) in H2.
    cbv beta iota in H2.
    apply digit_inj in H2; try (apply Nat.mod_upper_bound; lia).
    apply IH in H1.
    rewrite Nat.pow_succ_r', !Nat.Div0.mod_mul_r.
    rewrite H1, H2. reflexivity.
Qed.

Lemma pad_num_eq (w a b : nat) :
  (a < 10 ^ w)%nat -> (b < 10 ^ w)%nat -> pad_num w a = pad_num w b -> a = b.
Proof.
  intros Ha Hb H. apply pad_num_inj in H.
  rewrite !Nat.mod_small in H by assumption. exact H.
Qed.

Lemma strftime_run_id_inj (a b : DateTime) :
  valid_datetime a -> valid_datetime b ->
  strftime_run_id a = strftime_run_id b -> same_second a b.
Proof.
  intros Va Vb H. unfold strftime_run_id in H.
  unfold valid_datetime in Va, Vb.
  destruct Va as (Ya & Ma & Da & Ha & Mia & Sa).
  destruct Vb as (Yb & Mb & Db & Hb & Mib & Sb).
  apply str_app_cancel in H as [Hy H]; [| rewrite !pad_num_length; reflexivity].
  apply str_app_cancel in H as [Hm H]; [| rewrite !pad_num_length; reflexivity].
  apply str_app_cancel in H as [Hd H]; [| rewrite !pad_num_length; reflexivity].
  apply str_app_cancel in H as [_ H]; [| reflexivity].
  apply str_app_cancel in H as [Hh H]; [| rewrite !pad_num_length; reflexivity].
  apply str_app_cancel in H as [Hmi Hs]; [| rewrite !pad_num_length; reflexivity].
  apply pad_num_eq in Hy; [| apply Ya | apply Yb].
  apply pad_num_eq in Hm; [| change (10 ^ 2)%nat with 100%nat; lia
                          | change (10 ^ 2)%nat with 100%nat; lia].
  apply pad_num_eq in Hd; [| change (10 ^ 2)%nat with 100%nat; lia
                          | change (10 ^ 2)%nat with 100%nat; lia].
  apply pad_num_eq in Hh; [| change (10 ^ 2)%nat with 100%nat; lia
                          | change (10 ^ 2)%nat with 100%nat; lia].
  apply pad_num_eq in Hmi; [| change (10 ^ 2)%nat with 100%nat; lia
                          | change (10 ^ 2)%nat with 100%nat; lia].
  apply pad_num_eq in Hs; [| change (10 ^ 2)%nat with 100%nat; lia
                          | change (10 ^ 2)%nat with 100%nat; lia].
  unfold same_second. tauto.
Qed.

End RunIdFacts.

(** [trigger_workflow]: for clock readings of [datetime.now()], two
    triggers that reach Airflow send the same run id exactly when they are
    served in the same clock second; triggers in different seconds never
    share a run id. *)
Theorem trigger_run_id_unique_per_second (db1 db2 : RunId.Repos)
    (c1 c2 : RunId.TriggerWorkflowCommand) (t1 t2 : RunId.DateTime)
    (iso1 iso2 : string) (p1 p2 : RunId.TriggerPayload) :
  RunIdFacts.valid_datetime t1 -> RunIdFacts.valid_datetime t2 ->
  RunId.trigger_workflow db1 c1 t1 iso1 = Some p1 ->
  RunId.trigger_workflow db2 c2 t2 iso2 = Some p2 ->
  RunId.pl_dag_run_id p1 = RunId.pl_dag_run_id p2 <-> RunId.same_second t1 t2.
Proof.
  intros V1 V2 H1 H2.
  rewrite (trigger_workflow_run_id _ _ _ _ _ H1),
          (trigger_workflow_run_id _ _ _ _ _ H2).
  split.
  - intros H. apply RunIdFacts.strftime_run_id_inj; [exact V1 | exact V2 |].
    apply (RunIdFacts.str_app_cancel "api_trigger_" "api_trigger_");
      [reflexivity | exact H].
  - intros Hs. rewrite (strftime_run_id_same_second _ _ Hs). reflexivity.
Qed.

Lemma trigger_run_id_unique_per_second_witness :
  ("api_trigger_20240307_090501" = "api_trigger_20240307_090502" <->
   RunId.same_second (RunId.mkDateTime 2024 3 7 9 5 1 77)
                     (RunId.mkDateTime 2024 3 7 9 5 2 0)).
Proof.
  apply (trigger_run_id_unique_per_second sample_repos sample_repos sample_cmd1
           sample_cmd2 (RunId.mkDateTime 2024 3 7 9 5 1 77)
           (RunId.mkDateTime 2024 3 7 9 5 2 0) "a" "b"
           (RunId.mkPayload "data_processing_pipeline" "api_trigger_20240307_090501"
              [("task_id", PNat 7); ("dataset_id", PNone);
               ("parameters", PDict [("epochs", PNat 3)]);
               ("triggered_by", PNat 1); ("note", PNone)])
           (RunId.mkPayload "ml_training_pipeline" "api_trigger_20240307_090502"
              [("task_id", PNone); ("dataset_id", PNat 4);
               ("parameters", PDict []);
               ("triggered_by", PNat 2); ("note", PStr "nightly")])).
  - unfold RunIdFacts.valid_datetime; cbn [RunId.year RunId.month RunId.day
      RunId.hour RunId.minute RunId.second].
    split; [split; apply Nat.leb_le; vm_compute; reflexivity | lia].
  - unfold RunIdFacts.valid_datetime; cbn [RunId.year RunId.month RunId.day
      RunId.hour RunId.minute RunId.second].
    split; [split; apply Nat.leb_le; vm_compute; reflexivity | lia].
  - reflexivity.
  - reflexivity.
Defined.
